(** * Venmorph: the RequestManager contract and the attestor service

    A shallow embedding of

    - [contracts/contracts/RequestManager.sol] (module [RequestManager]),
    - [contracts/contracts/MockFtsoRegistry.sol] (module [MockFtsoRegistry]),
    - [attestor/src/index.js], class [VenmorphAttestor] (module [Attestor]),

    followed by the properties of the specification that concern them.

    Conventions.
    - A Solidity [uint256] is a [Z] in [0, 2^256); arithmetic is the checked
      arithmetic of Solidity 0.8 (an overflow reverts with Panic 0x11) except
      where the source says [unchecked].
    - A call that reverts leaves the contract state as it was; a function of
      the contract is a function from the call environment and the state to a
      [result].
    - [keccak256(bytes(a)) == keccak256(bytes(b))] is read as equality of the
      two strings.
    - Events and console output are not part of the model.
    - The libraries the service is built on (xrpl, ethers) are collaborators:
      what a call to them answers is a parameter of the model, and a
      rejected promise or a thrown error is a [Revert]. A call is taken to
      settle. The contract handle answers as ethers 5 does, whose
      [toNumber()] the service calls: a [uint8] decodes to a number (the
      status, compared with [1]) and a [uint256] to a BigNumber object.
    - One callback of a timer runs to its end before the next one starts. *)

From Stdlib Require Import ZArith Lia.
From stdpp Require Import base option list list_numbers gmap strings.

Local Open Scope Z_scope.

(** ** Results of fallible calls *)

Inductive result (A : Type) : Type :=
| Ok (a : A)
| Revert (reason : string).
Arguments Ok {A} a.
Arguments Revert {A} reason.

#[global] Instance result_ret : MRet result := @Ok.
#[global] Instance result_bind : MBind result :=
  fun A B f r => match r with Ok a => f a | Revert e => Revert e end.

Definition require (cond : bool) (reason : string) : result unit :=
  if cond then Ok tt else Revert reason.

Definition is_ok {A} (r : result A) : bool :=
  match r with Ok _ => true | Revert _ => false end.

(** ** Checked [uint256] arithmetic (Solidity 0.8) *)

Definition UINT256_MOD : Z := 2 ^ 256.

Definition PANIC_OVERFLOW : string := "Panic(0x11)".
Definition PANIC_DIV_ZERO : string := "Panic(0x12)".

Definition in_uint256 (x : Z) : bool := (0 <=? x) && (x <? UINT256_MOD).

Definition checked (x : Z) : result Z :=
  if in_uint256 x then Ok x else Revert PANIC_OVERFLOW.

Definition checked_mul (a b : Z) : result Z := checked (a * b).
Definition checked_sub (a b : Z) : result Z := checked (a - b).
Definition checked_pow (a b : Z) : result Z := checked (a ^ b).
Definition checked_div (a b : Z) : result Z :=
  if b =? 0 then Revert PANIC_DIV_ZERO else Ok (a / b).

(** ** The contract *)

Module RequestManager.

Definition address := Z.
Definition bytes32 := string.

(** [enum RequestStatus { PENDING, PAID, CANCELLED, EXPIRED }] *)
Inductive RequestStatus := PENDING | PAID | CANCELLED | EXPIRED.

#[global] Instance RequestStatus_eq_dec : EqDecision RequestStatus.
Proof. solve_decision. Defined.

(** The [uint8] an enum value is encoded as. *)
Definition status_code (st : RequestStatus) : Z :=
  match st with PENDING => 0 | PAID => 1 | CANCELLED => 2 | EXPIRED => 3 end.

Record Request := mkRequest {
  id : Z;
  creator : address;
  recipientXRPL : string;
  assetSymbol : string;
  assetAmount : Z;
  expiry : Z;
  slippageBp : Z;
  status : RequestStatus;
  paidTxHash : bytes32;
  paidAmount : Z;
  paidTimestamp : Z;
  message : string
}.

(** The value a [mapping(uint256 => Request)] holds at a key never written. *)
Definition zero_request : Request :=
  mkRequest 0 0 "" "" 0 0 0 PENDING "" 0 0 "".

(** What [IFtsoRegistry.getCurrentPriceWithDecimals] answers:
    [(_price, _timestamp, _decimals)], or a revert. *)
Definition PriceFeed := string -> result (Z * Z * Z).

(** The environment of one call: [msg.sender], [block.timestamp], and the
    behaviour of the contract deployed at each address when it is called
    through [IFtsoRegistry] during this call. *)
Record Env := mkEnv {
  msg_sender : address;
  block_timestamp : Z;
  ftso_at : address -> PriceFeed
}.

Record State := mkState {
  requestIds : Z;                          (* Counters.Counter _requestIds *)
  ftsoRegistry : address;
  requests : gmap Z Request;
  userRequests : gmap Z (list Z);
  supportedAssets : gmap string bool;
  authorizedAttestors : gmap Z bool;
  owner : address                          (* Ownable *)
}.

Definition request_at (s : State) (i : Z) : Request :=
  default zero_request (requests s !! i).

Definition set_requestIds (n : Z) (s : State) : State :=
  mkState n (ftsoRegistry s) (requests s) (userRequests s)
          (supportedAssets s) (authorizedAttestors s) (owner s).
Definition set_ftsoRegistry (a : address) (s : State) : State :=
  mkState (requestIds s) a (requests s) (userRequests s)
          (supportedAssets s) (authorizedAttestors s) (owner s).
Definition set_request (i : Z) (r : Request) (s : State) : State :=
  mkState (requestIds s) (ftsoRegistry s) (<[i := r]> (requests s))
          (userRequests s) (supportedAssets s) (authorizedAttestors s)
          (owner s).
Definition push_userRequest (a : address) (i : Z) (s : State) : State :=
  mkState (requestIds s) (ftsoRegistry s) (requests s)
          (<[a := default [] (userRequests s !! a) ++ [i]]> (userRequests s))
          (supportedAssets s) (authorizedAttestors s) (owner s).
Definition set_supportedAsset (sym : string) (b : bool) (s : State) : State :=
  mkState (requestIds s) (ftsoRegistry s) (requests s) (userRequests s)
          (<[sym := b]> (supportedAssets s)) (authorizedAttestors s)
          (owner s).
Definition set_authorizedAttestor (a : address) (b : bool) (s : State)
  : State :=
  mkState (requestIds s) (ftsoRegistry s) (requests s) (userRequests s)
          (supportedAssets s) (<[a := b]> (authorizedAttestors s)) (owner s).

Definition set_owner (a : address) (s : State) : State :=
  mkState (requestIds s) (ftsoRegistry s) (requests s) (userRequests s)
          (supportedAssets s) (authorizedAttestors s) a.

(** [Counters.increment] of OpenZeppelin 4.x: [unchecked { _value += 1; }]. *)
Definition Counters_increment (v : Z) : Z := (v + 1) mod UINT256_MOD.

(** *** Modifiers *)

Definition onlyOwner (e : Env) (s : State) : result unit :=
  require (bool_decide (owner s = msg_sender e))
          "Ownable: caller is not the owner".

Definition onlyAuthorizedAttestor (e : Env) (s : State) : result unit :=
  require (default false (authorizedAttestors s !! msg_sender e))
          "Not authorized attestor".

Definition validRequest (s : State) (_requestId : Z) : result unit :=
  require (_requestId <=? requestIds s) "Invalid request ID" ;;
  require (negb (creator (request_at s _requestId) =? 0))
          "Request does not exist".

(** *** constructor *)

Definition constructor (e : Env) (_ftsoRegistry : address) : State :=
  mkState 0 _ftsoRegistry ∅ ∅
    (<["USDC" := true]> (<["USDT" := true]> (<["BTC" := true]>
      (<["XRP" := true]> (<["ETH" := true]> ∅)))))
    ∅ (msg_sender e).

(** *** createRequest *)

Definition createRequest (e : Env) (s : State)
    (_recipientXRPL _assetSymbol : string) (_assetAmount _expiry : Z)
    (_slippageBp : Z) (_message : string) : result (Z * State) :=
  require (0 <? Z.of_nat (String.length _recipientXRPL))
          "Invalid recipient XRPL address" ;;
  require (default false (supportedAssets s !! _assetSymbol))
          "Asset not supported" ;;
  require (0 <? _assetAmount) "Amount must be greater than 0" ;;
  require (block_timestamp e <? _expiry) "Expiry must be in the future" ;;
  require (_slippageBp <=? 1000) "Slippage cannot exceed 10%" ;;
  let newRequestId := Counters_increment (requestIds s) in
  let old := request_at s newRequestId in
  let newRequest :=
    mkRequest newRequestId (msg_sender e) _recipientXRPL _assetSymbol
              _assetAmount _expiry _slippageBp PENDING
              (paidTxHash old) (paidAmount old) (paidTimestamp old)
              _message in
  Ok (newRequestId,
      push_userRequest (msg_sender e) newRequestId
        (set_request newRequestId newRequest
           (set_requestIds newRequestId s))).

(** *** calculateXRPAmount *)

Definition calculateXRPAmount (e : Env) (s : State)
    (_assetSymbol : string) (_assetAmount : Z) : result Z :=
  if bool_decide (_assetSymbol = "XRP") then Ok _assetAmount
  else
    '(assetPrice, _, assetDecimals) ←
       ftso_at e (ftsoRegistry s) _assetSymbol ;
    '(xrpPrice, _, xrpDecimals) ← ftso_at e (ftsoRegistry s) "XRP" ;
    require ((0 <? assetPrice) && (0 <? xrpPrice)) "Invalid price data" ;;
    a ← checked_mul _assetAmount assetPrice ;
    px ← checked_pow 10 xrpDecimals ;
    num ← checked_mul a px ;
    pa ← checked_pow 10 assetDecimals ;
    den ← checked_mul xrpPrice pa ;
    checked_div num den.

(** *** submitPaymentAttestation *)

Definition submitPaymentAttestation (e : Env) (s : State)
    (_requestId : Z) (_txHash : bytes32) (_paidAmountXRP _timestamp : Z)
  : result State :=
  onlyAuthorizedAttestor e s ;;
  validRequest s _requestId ;;
  let request := request_at s _requestId in
  require (bool_decide (status request = PENDING)) "Request not pending" ;;
  require (block_timestamp e <=? expiry request) "Request expired" ;;
  require (_timestamp <=? block_timestamp e)
          "Future timestamp not allowed" ;;
  requiredXRP ←
    calculateXRPAmount e s (assetSymbol request) (assetAmount request) ;
  keep ← checked_sub 10000 (slippageBp request) ;
  scaled ← checked_mul requiredXRP keep ;
  minAcceptableAmount ← checked_div scaled 10000 ;
  require (minAcceptableAmount <=? _paidAmountXRP)
          "Insufficient payment amount" ;;
  Ok (set_request _requestId
        (mkRequest (id request) (creator request) (recipientXRPL request)
           (assetSymbol request) (assetAmount request) (expiry request)
           (slippageBp request) PAID _txHash _paidAmountXRP _timestamp
           (message request)) s).

Definition with_status (st : RequestStatus) (r : Request) : Request :=
  mkRequest (id r) (creator r) (recipientXRPL r) (assetSymbol r)
    (assetAmount r) (expiry r) (slippageBp r) st (paidTxHash r)
    (paidAmount r) (paidTimestamp r) (message r).

(** *** cancelRequest *)

Definition cancelRequest (e : Env) (s : State) (_requestId : Z)
  : result State :=
  validRequest s _requestId ;;
  let request := request_at s _requestId in
  require (bool_decide (creator request = msg_sender e))
          "Only creator can cancel" ;;
  require (bool_decide (status request = PENDING))
          "Can only cancel pending requests" ;;
  Ok (set_request _requestId (with_status CANCELLED request) s).

(** *** markExpired *)

Definition markExpired (e : Env) (s : State) (_requestId : Z)
  : result State :=
  validRequest s _requestId ;;
  let request := request_at s _requestId in
  require (bool_decide (status request = PENDING)) "Request not pending" ;;
  require (expiry request <? block_timestamp e)
          "Request not yet expired" ;;
  Ok (set_request _requestId (with_status EXPIRED request) s).

(** *** Views *)

Definition getRequest (s : State) (_requestId : Z) : result Request :=
  validRequest s _requestId ;;
  Ok (request_at s _requestId).

Definition getUserRequests (s : State) (_user : address) : list Z :=
  default [] (userRequests s !! _user).

Definition getTotalRequests (s : State) : Z := requestIds s.

(** [getExchangeRate]: the two prices as the registry reports them, with the
    timestamp of the asset's price. *)
Definition getExchangeRate (e : Env) (s : State) (_assetSymbol : string)
  : result (Z * Z * Z) :=
  '(assetPrice, timestamp, _) ← ftso_at e (ftsoRegistry s) _assetSymbol ;
  '(xrpPrice, _, _) ← ftso_at e (ftsoRegistry s) "XRP" ;
  Ok (assetPrice, xrpPrice, timestamp).

(** *** Admin functions *)

Definition addAuthorizedAttestor (e : Env) (s : State) (a : address)
  : result State :=
  onlyOwner e s ;; Ok (set_authorizedAttestor a true s).
Definition removeAuthorizedAttestor (e : Env) (s : State) (a : address)
  : result State :=
  onlyOwner e s ;; Ok (set_authorizedAttestor a false s).
Definition addSupportedAsset (e : Env) (s : State) (sym : string)
  : result State :=
  onlyOwner e s ;; Ok (set_supportedAsset sym true s).
Definition removeSupportedAsset (e : Env) (s : State) (sym : string)
  : result State :=
  onlyOwner e s ;; Ok (set_supportedAsset sym false s).
Definition updateFtsoRegistry (e : Env) (s : State) (a : address)
  : result State :=
  onlyOwner e s ;; Ok (set_ftsoRegistry a s).

(** *** Inherited from Ownable (OpenZeppelin 4.x) *)

Definition transferOwnership (e : Env) (s : State) (newOwner : address)
  : result State :=
  onlyOwner e s ;;
  require (negb (newOwner =? 0)) "Ownable: new owner is the zero address" ;;
  Ok (set_owner newOwner s).
Definition renounceOwnership (e : Env) (s : State) : result State :=
  onlyOwner e s ;; Ok (set_owner 0 s).

(** *** Transactions *)

(** The state-changing external functions, as transactions sent to the
    contract. *)
Inductive Call :=
| CreateRequest (_recipientXRPL _assetSymbol : string)
                (_assetAmount _expiry _slippageBp : Z) (_message : string)
| SubmitPaymentAttestation (_requestId : Z) (_txHash : bytes32)
                           (_paidAmountXRP _timestamp : Z)
| CancelRequest (_requestId : Z)
| MarkExpired (_requestId : Z)
| AddAuthorizedAttestor (_attestor : address)
| RemoveAuthorizedAttestor (_attestor : address)
| AddSupportedAsset (_symbol : string)
| RemoveSupportedAsset (_symbol : string)
| UpdateFtsoRegistry (_newRegistry : address)
| TransferOwnership (newOwner : address)
| RenounceOwnership.

(** The value a transaction returns (only [createRequest] returns one)
    and the state it leaves. *)
Definition call (e : Env) (c : Call) (s : State)
  : result (option Z * State) :=
  match c with
  | CreateRequest rcp sym amount exp bp msg =>
      '(i, s') ← createRequest e s rcp sym amount exp bp msg ;
      Ok (Some i, s')
  | SubmitPaymentAttestation i h amount t =>
      s' ← submitPaymentAttestation e s i h amount t ; Ok (None, s')
  | CancelRequest i => s' ← cancelRequest e s i ; Ok (None, s')
  | MarkExpired i => s' ← markExpired e s i ; Ok (None, s')
  | AddAuthorizedAttestor a =>
      s' ← addAuthorizedAttestor e s a ; Ok (None, s')
  | RemoveAuthorizedAttestor a =>
      s' ← removeAuthorizedAttestor e s a ; Ok (None, s')
  | AddSupportedAsset sym => s' ← addSupportedAsset e s sym ; Ok (None, s')
  | RemoveSupportedAsset sym =>
      s' ← removeSupportedAsset e s sym ; Ok (None, s')
  | UpdateFtsoRegistry a => s' ← updateFtsoRegistry e s a ; Ok (None, s')
  | TransferOwnership a => s' ← transferOwnership e s a ; Ok (None, s')
  | RenounceOwnership => s' ← renounceOwnership e s ; Ok (None, s')
  end.

(** A reverted transaction changes nothing. *)
Definition step (s : State) (ec : Env * Call) : State :=
  match call (fst ec) (snd ec) s with
  | Ok (_, s') => s'
  | Revert _ => s
  end.

Definition run (tr : list (Env * Call)) (s : State) : State :=
  fold_left step tr s.

(** The identifiers returned, in order, by the transactions of a trace
    that succeeded in creating a request. *)
Fixpoint created_ids (tr : list (Env * Call)) (s : State) : list Z :=
  match tr with
  | [] => []
  | ec :: tr' =>
      match call (fst ec) (snd ec) s with
      | Ok (Some i, _) => i :: created_ids tr' (step s ec)
      | _ => created_ids tr' (step s ec)
      end
  end.

(** The three operations that move a request through its life cycle, and
    the status each one writes. *)
Definition lifecycle_target (c : Call) : option RequestStatus :=
  match c with
  | SubmitPaymentAttestation _ _ _ _ => Some PAID
  | CancelRequest _ => Some CANCELLED
  | MarkExpired _ => Some EXPIRED
  | _ => None
  end.

End RequestManager.

(** ** The mock price registry *)

Module MockFtsoRegistry.

Record PriceData := mkPriceData {
  price : Z;
  decimals : Z;
  timestamp : Z
}.

Definition State := gmap string PriceData.

Definition constructor (now : Z) : State :=
  <["USDC" := mkPriceData 100000 5 now]>
    (<["USDT" := mkPriceData 100000 5 now]>
      (<["BTC" := mkPriceData 4500000000 5 now]>
        (<["XRP" := mkPriceData 50000 5 now]>
          (<["ETH" := mkPriceData 200000000 5 now]> ∅)))).

Definition getCurrentPriceWithDecimals (prices : State) (_symbol : string)
  : result (Z * Z * Z) :=
  let data := default (mkPriceData 0 0 0) (prices !! _symbol) in
  require (0 <? price data) "Price not available" ;;
  Ok (price data, timestamp data, decimals data).

Definition getCurrentPrice (prices : State) (_symbol : string)
  : result (Z * Z) :=
  let data := default (mkPriceData 0 0 0) (prices !! _symbol) in
  require (0 <? price data) "Price not available" ;;
  Ok (price data, timestamp data).

Definition updatePrice (now : Z) (prices : State)
    (_symbol : string) (_price _decimals : Z) : State :=
  <[_symbol := mkPriceData _price _decimals now]> prices.

End MockFtsoRegistry.

(** ** The attestor service *)

Module Attestor.

(** *** JavaScript values the service relies on *)

(** A [Map] keyed by numbers, as the list of its entries in insertion
    order: [set] on a key already present replaces the value in place,
    [set] on a new key appends, iteration follows the list. *)
Definition JsMap (V : Type) := list (Z * V).

Definition Map_has {V} (k : Z) (m : JsMap V) : bool :=
  existsb (fun kv => fst kv =? k) m.
Definition Map_get {V} (k : Z) (m : JsMap V) : option V :=
  snd <$> List.find (fun kv => fst kv =? k) m.
Definition Map_set {V} (k : Z) (v : V) (m : JsMap V) : JsMap V :=
  if Map_has k m
  then List.map (fun kv => if fst kv =? k then (k, v) else kv) m
  else m ++ [(k, v)].
Definition Map_delete {V} (k : Z) (m : JsMap V) : JsMap V :=
  List.filter (fun kv => negb (fst kv =? k)) m.
Definition Map_size {V} (m : JsMap V) : Z := Z.of_nat (length m).

(** [!x] for a value that is [undefined] or a string. *)
Definition falsy_string (x : option string) : bool :=
  match x with
  | None => true
  | Some s => bool_decide (s = "")
  end.

(** Truthiness of a value that is [null] or an integral number. *)
Definition truthy_number (x : option Z) : bool :=
  match x with
  | None => false
  | Some n => negb (n =? 0)
  end.

(** [BigNumber.toNumber()]: throws outside the safe integer range. *)
Definition MAX_SAFE_INTEGER : Z := 2 ^ 53 - 1.
Definition toNumber (x : Z) : result Z :=
  if (- MAX_SAFE_INTEGER <=? x) && (x <=? MAX_SAFE_INTEGER)
  then Ok x else Revert "overflow".

(** *** Configuration ([config.flare], [config.attestor]) *)

Record Config := mkConfig {
  privateKey : option string;            (* env.ATTESTOR_PRIVATE_KEY *)
  requestManagerAddress : option string; (* env.REQUEST_MANAGER_ADDRESS *)
  batchSize : Z                          (* parseInt(BATCH_SIZE) || 10 *)
}.

(** *** The collaborators *)

(** A transaction as the service reads it. [Amount] is the number of
    drops that the string [tx.Amount] of an XRP payment writes in decimal
    digits. *)
Record Tx := mkTx {
  hash : string;
  TransactionType : string;
  Destination : string;
  Amount : Z;
  date : Z
}.

(** The XRPL client during one call of the service: the outcome of
    [connect()], the [validated_ledger.seq] that [server_info] reports, and
    the [transactions] field ([None] when undefined) that [ledger] reports
    for an index. *)
Record Xrpl := mkXrpl {
  connect : result unit;
  server_info : result Z;
  ledger : Z -> result (option (list Tx))
}.

(** The ethers contract handle, over a chain of type [W]. The three
    functions are those of [REQUEST_MANAGER_ABI] that the service calls;
    a failure is any rejection of the promise (a revert, a network error,
    a failed [tx.wait()]). *)
Class ChainClient (W : Type) := {
  getTotalRequests : W -> result Z;
  getRequest : W -> Z -> result RequestManager.Request;
  submitPaymentAttestation :
    W -> Z -> string -> Z -> Z -> result W
}.

(** The outcome of building the provider, the wallet and the contract
    handle from the two configuration strings. *)
Definition Ethers := string -> string -> result unit.

(** *** State of a [VenmorphAttestor] *)

Record State := mkState {
  isRunning : bool;
  lastProcessedLedger : option Z;
  pendingRequests : JsMap RequestManager.Request;
  processedTransactions : gset string
}.

(** [constructor()] *)
Definition constructor : State := mkState false None [] ∅.

Definition set_isRunning (b : bool) (a : State) : State :=
  mkState b (lastProcessedLedger a) (pendingRequests a)
          (processedTransactions a).
Definition set_lastProcessedLedger (l : option Z) (a : State) : State :=
  mkState (isRunning a) l (pendingRequests a) (processedTransactions a).
Definition set_pendingRequests (m : JsMap RequestManager.Request)
    (a : State) : State :=
  mkState (isRunning a) (lastProcessedLedger a) m (processedTransactions a).
Definition add_processedTransaction (h : string) (a : State) : State :=
  mkState (isRunning a) (lastProcessedLedger a) (pendingRequests a)
          ({[ h ]} ∪ processedTransactions a).

(** A call of [requestManagerContract.submitPaymentAttestation] made by
    the service, and whether it succeeded. *)
Record Submission := mkSubmission {
  sub_requestId : Z;
  sub_txHash : string;
  sub_amount : Z;
  sub_timestamp : Z;
  sub_ok : bool
}.

(** *** Strict equality *)

(** The two kinds of value that [matchesRequest] compares. The amount of
    a transaction is a primitive string of decimal digits; a [uint256]
    field of a request is the BigNumber object into which ethers decoded
    it. Each is written by the integer it denotes, under the constructor
    of its JavaScript type. *)
Inductive JsValue :=
| JsString (digits : Z)
| JsBigNumber (value : Z).

(** [a === b]. Neither operand is converted. Operands of different
    types are not equal. Two strings are equal when their characters are,
    which for decimal numerals is when their numbers are. Two objects are
    equal only when they are one and the same object: ethers builds a
    BigNumber of its own for every field it decodes, and the service
    compares no BigNumber with itself. *)
Definition strict_equals (a b : JsValue) : bool :=
  match a, b with
  | JsString m, JsString n => m =? n
  | JsString _, JsBigNumber _ => false
  | JsBigNumber _, JsString _ => false
  | JsBigNumber _, JsBigNumber _ => false
  end.

(** *** matchesRequest *)

(** [tx] comes from an answer of the XRPL node, [request] from the cache,
    where it is as [getRequest] of the ethers contract handle returned
    it. *)
Definition matchesRequest (tx : Tx) (request : RequestManager.Request)
  : bool :=
  bool_decide (Destination tx = RequestManager.recipientXRPL request)
  && strict_equals (JsString (Amount tx))
                   (JsBigNumber (RequestManager.assetAmount request)).

Section Service.
Context {W : Type} {client : ChainClient W}.

(** The service together with the chain it talks to and the record of
    the submissions it has made. *)
Record Run := mkRun {
  att : State;
  chain : W;
  submitted : list Submission
}.

(** *** loadPendingRequests *)

(** The body of both [for] loops over request identifiers. *)
Definition load_one (w : W) (m : JsMap RequestManager.Request) (i : Z)
  : JsMap RequestManager.Request :=
  match getRequest w i with
  | Ok request =>
      if RequestManager.status_code (RequestManager.status request) =? 1
      then Map_set i request m
      else m
  | Revert _ => m
  end.

Definition loadPendingRequests (cfg : Config) (w : W) (a : State)
  : result State :=
  totalRequests ← getTotalRequests w ;
  n ← toNumber totalRequests ;
  let batch := Z.min (batchSize cfg) n in
  let start := Z.max 0 (n - batch) in
  Ok (set_pendingRequests
        (fold_left (load_one w) (seqZ start (n - start))
                   (pendingRequests a)) a).

(** *** The callback of startRequestMonitoring *)

Definition requestMonitoringTick (w : W) (a : State) : State :=
  if negb (isRunning a) then a
  else
    match totalRequests ← getTotalRequests w ; toNumber totalRequests with
    | Ok currentCount =>
        let start := Map_size (pendingRequests a) in
        set_pendingRequests
          (fold_left (load_one w) (seqZ start (currentCount - start))
                     (pendingRequests a)) a
    | Revert _ => a
    end.

(** *** submitAttestation *)

Definition submitAttestation (requestId : Z) (txHash : string)
    (amount timestamp : Z) (r : Run) : Run :=
  match submitPaymentAttestation (chain r) requestId txHash amount
                                 timestamp with
  | Ok w' =>
      mkRun (att r) w'
        (submitted r ++
           [mkSubmission requestId txHash amount timestamp true])
  | Revert _ =>
      mkRun (att r) (chain r)
        (submitted r ++
           [mkSubmission requestId txHash amount timestamp false])
  end.

(** *** checkPaymentTransaction *)

Definition check_one (tx : Tx) (r : Run)
    (entry : Z * RequestManager.Request) : Run :=
  let '(requestId, request) := entry in
  if matchesRequest tx request then
    let r' := submitAttestation requestId (hash tx) (Amount tx) (date tx)
                                r in
    mkRun (set_pendingRequests
             (Map_delete requestId (pendingRequests (att r'))) (att r'))
          (chain r') (submitted r')
  else r.

Definition checkPaymentTransaction (tx : Tx) (r : Run) : Run :=
  fold_left (check_one tx) (pendingRequests (att r)) r.

(** *** processTransaction *)

Definition processTransaction (r : Run) (tx : Tx) : Run :=
  if bool_decide (hash tx ∈ processedTransactions (att r)) then r
  else
    let r' := if bool_decide (TransactionType tx = "Payment")
              then checkPaymentTransaction tx r else r in
    mkRun (add_processedTransaction (hash tx) (att r'))
          (chain r') (submitted r').

(** *** processLedger *)

Definition processLedger (x : Xrpl) (r : Run) (ledgerIndex : Z) : Run :=
  match ledger x ledgerIndex with
  | Ok (Some transactions) => fold_left processTransaction transactions r
  | Ok None => r
  | Revert _ => r
  end.

(** *** checkXRPLTransactions *)

Definition checkXRPLTransactions (x : Xrpl) (r : Run) : Run :=
  match server_info x with
  | Ok currentLedger =>
      let r' :=
        match lastProcessedLedger (att r) with
        | Some last =>
            if truthy_number (Some last) && (last <? currentLedger)
            then fold_left (processLedger x)
                           (seqZ (last + 1) (currentLedger - last)) r
            else r
        | None => r
        end in
      mkRun (set_lastProcessedLedger (Some currentLedger) (att r'))
            (chain r') (submitted r')
  | Revert _ => r
  end.

(** The callback of startXRPLMonitoring. *)
Definition xrplMonitoringTick (x : Xrpl) (r : Run) : Run :=
  if negb (isRunning (att r)) then r else checkXRPLTransactions x r.

(** *** initializeXRPL, initializeFlare, initialize, start *)

Definition initializeXRPL (x : Xrpl) (a : State) : result State :=
  connect x ;;
  seq ← server_info x ;
  Ok (set_lastProcessedLedger (Some seq) a).

Definition initializeFlare (cfg : Config) (ethers : Ethers)
  : result unit :=
  require (negb (falsy_string (privateKey cfg)))
          "ATTESTOR_PRIVATE_KEY environment variable is required" ;;
  require (negb (falsy_string (requestManagerAddress cfg)))
          "REQUEST_MANAGER_ADDRESS environment variable is required" ;;
  ethers (default "" (privateKey cfg))
         (default "" (requestManagerAddress cfg)).

Definition initialize (cfg : Config) (x : Xrpl) (ethers : Ethers)
    (w : W) (a : State) : result State :=
  a1 ← initializeXRPL x a ;
  initializeFlare cfg ethers ;;
  loadPendingRequests cfg w a1.

(** What [start()] leaves behind: a running service, or the process
    gone with an exit code. *)
Inductive Outcome :=
| Started (a : State)
| Exited (code : Z).

Definition start (cfg : Config) (x : Xrpl) (ethers : Ethers)
    (w : W) (a : State) : Outcome :=
  match initialize cfg x ethers w a with
  | Ok a' => Started (set_isRunning true a')
  | Revert _ => Exited 1
  end.

(** [stop()] *)
Definition stop (a : State) : State := set_isRunning false a.

End Service.

Arguments Run W : clear implicits.
Arguments Outcome : clear implicits.

(** *** The contract as the chain behind the client *)

(** The deployed contract together with the environment in which the
    attestor's wallet calls it. *)
Record Deployed := mkDeployed {
  call_env : RequestManager.Env;
  contract : RequestManager.State
}.

#[global] Instance Deployed_client : ChainClient Deployed := {
  getTotalRequests w := Ok (RequestManager.getTotalRequests (contract w));
  getRequest w i := RequestManager.getRequest (contract w) i;
  submitPaymentAttestation w i h amount t :=
    s' ← RequestManager.submitPaymentAttestation
           (call_env w) (contract w) i h amount t ;
    Ok (mkDeployed (call_env w) s')
}.

End Attestor.

(** ** The intermediate values of the conversion *)

Module Conversion.

(** Every intermediate value of [calculateXRPAmount] fits in a
    [uint256]. *)
Definition products_fit (a assetPrice assetDecimals xrpPrice xrpDecimals : Z)
  : bool :=
  in_uint256 (a * assetPrice)
  && in_uint256 (10 ^ xrpDecimals)
  && in_uint256 (a * assetPrice * 10 ^ xrpDecimals)
  && in_uint256 (10 ^ assetDecimals)
  && in_uint256 (xrpPrice * 10 ^ assetDecimals).

End Conversion.

(** ** The matching predicate as the specification designs it *)

Module Designed.
Import RequestManager.

(** The least amount the contract accepts for a request, by the formula
    of [submitPaymentAttestation]: the converted amount reduced by the
    slippage tolerance. *)
Definition minAcceptableAmount (e : Env) (s : State) (request : Request)
  : result Z :=
  requiredXRP ←
    calculateXRPAmount e s (assetSymbol request) (assetAmount request) ;
  keep ← checked_sub 10000 (slippageBp request) ;
  scaled ← checked_mul requiredXRP keep ;
  checked_div scaled 10000.

(** Section 4.4 and the scenario of section 8: the destination is the
    recipient and the amount satisfies the required amount, converted and
    reduced by the tolerance at the time of the match. *)
Definition designed_match (e : Env) (s : State) (tx : Attestor.Tx)
    (request : Request) : bool :=
  bool_decide (Attestor.Destination tx = recipientXRPL request)
  && match minAcceptableAmount e s request with
     | Ok m => m <=? Attestor.Amount tx
     | Revert _ => false
     end.

End Designed.

(** ** A deployment to run the code on *)

Module Scenario.
Import RequestManager.

Definition REGISTRY : address := 7.
Definition OWNER : address := 1000.
Definition ALICE : address := 2000.
Definition WALLET : address := 3000.   (* the attestor's wallet *)

(** The mock registry is deployed at [REGISTRY]; a call to any other
    address finds no contract and reverts. *)
Definition env (sender now : Z) : Env :=
  mkEnv sender now
    (fun a => if a =? REGISTRY
              then MockFtsoRegistry.getCurrentPriceWithDecimals
                     (MockFtsoRegistry.constructor 0)
              else fun _ => Revert "call to non-contract").

Definition fresh : State := constructor (env OWNER 0) REGISTRY.

(** 1,000 XRP, in drops, to [rXYZ], at 1% slippage. *)
Definition ask (memo : string) : Call :=
  CreateRequest "rXYZ" "XRP" 1000000000 10000 100 memo.

(** One request, pending. *)
Definition one_pending : State :=
  run [(env OWNER 1, AddAuthorizedAttestor WALLET);
       (env ALICE 2, ask "dinner")] fresh.

(** Two requests, both pending. *)
Definition two_pending : State :=
  run [(env ALICE 3, ask "taxi")] one_pending.

(** Request 1 paid, request 2 pending. *)
Definition paid_then_pending : State :=
  run [(env WALLET 4, SubmitPaymentAttestation 1 "F00D" 1000000000 4)]
      two_pending.

(** Requests 1 and 2 paid, request 3 pending. *)
Definition two_paid : State :=
  run [(env ALICE 5, ask "coffee");
       (env WALLET 6, SubmitPaymentAttestation 2 "BEEF" 1000000000 6)]
      paid_then_pending.

(** The chain as the attestor's wallet sees it at time [now]. *)
Definition chain_at (now : Z) (s : State) : Attestor.Deployed :=
  Attestor.mkDeployed (env WALLET now) s.

Definition config : Attestor.Config :=
  Attestor.mkConfig (Some "0xkey") (Some "0xmanager") 10.

Definition ethers_ok : Attestor.Ethers := fun _ _ => Ok tt.

(** A payment of [amount] drops to [rXYZ]. *)
Definition payment (h : string) (amount : Z) : Attestor.Tx :=
  Attestor.mkTx h "Payment" "rXYZ" amount 7.

(** An XRPL node whose validated ledger is [seq] and whose ledger [seq]
    holds the transactions [txs]. *)
Definition xrpl (seq : Z) (txs : list Attestor.Tx) : Attestor.Xrpl :=
  Attestor.mkXrpl (Ok tt) (Ok seq)
    (fun i => if i =? seq then Ok (Some txs) else Ok (Some [])).

(** The service started over a chain, or as constructed when [start]
    exits. *)
Definition started (seq : Z) (w : Attestor.Deployed) : Attestor.State :=
  match Attestor.start config (xrpl seq []) ethers_ok w
                       Attestor.constructor with
  | Attestor.Started a => a
  | Attestor.Exited _ => Attestor.constructor
  end.

(** A connection on which every call is rejected. *)
Inductive Offline := offline.

#[global] Instance Offline_client : Attestor.ChainClient Offline := {
  Attestor.getTotalRequests _ := Revert "network error";
  Attestor.getRequest _ _ := Revert "network error";
  Attestor.submitPaymentAttestation _ _ _ _ _ := Revert "network error"
}.

(** The service just started over the chain where request 1 is paid and
    request 2 is pending. *)
Definition run0 : Attestor.Run Attestor.Deployed :=
  Attestor.mkRun (started 100 (chain_at 10 paid_then_pending))
                 (chain_at 10 paid_then_pending) [].


(** The request the scenario of section 8 speaks of. *)
Definition request42 : Request :=
  mkRequest 42 ALICE "rXYZ" "XRP" 1000000000 10000 100 PENDING "" 0 0 "".

End Scenario.

(** ** Invariants of the contract's storage *)

Module Invariants.
Import RequestManager.

(** What holds of a request stored under an identifier in use. *)
Definition stored_ok (i : Z) (r : Request) : Prop :=
  id r = i /\
  0 < assetAmount r /\
  slippageBp r <= 1000 /\
  recipientXRPL r <> "" /\
  (status r <> PAID ->
   paidTxHash r = "" /\ paidAmount r = 0 /\ paidTimestamp r = 0).

(** The identifiers in use are 1, ..., [requestIds]; each holds a request
    as [createRequest] admits it, and nothing is stored elsewhere. *)
Definition storage_ok (s : State) : Prop :=
  0 <= requestIds s /\
  forall i,
    (1 <= i <= requestIds s ->
     exists r, requests s !! i = Some r /\ stored_ok i r) /\
    (i < 1 \/ requestIds s < i -> requests s !! i = None).

(** The identifiers created by [u], oldest first. *)
Definition created_by (s : State) (u : address) : list Z :=
  List.filter (fun i => creator (request_at s i) =? u)
              (seqZ 1 (requestIds s)).

(** The five administrative functions of the contract. *)
Definition is_admin (c : Call) : bool :=
  match c with
  | AddAuthorizedAttestor _ | RemoveAuthorizedAttestor _
  | AddSupportedAsset _ | RemoveSupportedAsset _
  | UpdateFtsoRegistry _ => true
  | _ => false
  end.

Definition is_addAuthorizedAttestor (c : Call) : bool :=
  match c with AddAuthorizedAttestor _ => true | _ => false end.

End Invariants.

(** ** Sequences of timer callbacks *)

Module Schedule.
Import Attestor.

(** What happens between two callbacks of the service: the XRPL timer
    fires (against the node as it then is), the request timer fires, or
    others transact with the chain. *)
Inductive Tick (W : Type) :=
| XrplTick (x : Xrpl)
| RequestTick
| Elsewhere (w' : W).
Arguments XrplTick {W} x.
Arguments RequestTick {W}.
Arguments Elsewhere {W} w'.

Definition tick {W} {client : ChainClient W} (r : Run W) (t : Tick W)
  : Run W :=
  match t with
  | XrplTick x => xrplMonitoringTick x r
  | RequestTick =>
      mkRun (requestMonitoringTick (chain r) (att r)) (chain r) (submitted r)
  | Elsewhere w' => mkRun (att r) w' (submitted r)
  end.

(** The keys of a [Map] are distinct. *)
Definition distinct_keys {V} (m : JsMap V) : Prop := NoDup (fst <$> m).

(** A submission for a request of the cache [c0], with the request's asset
    amount as the paid amount. *)
Definition attests (c0 : JsMap RequestManager.Request) (sub : Submission)
  : Prop :=
  exists k q,
    (k, q) ∈ c0 /\ sub_requestId sub = k /\
    sub_amount sub = RequestManager.assetAmount q.

(** From [r] to [r'] the service kept its running flag, only lost entries
    of its cache, only gained processed hashes, and only added submissions
    that attest requests of [c0]. *)
Definition follows {W} (c0 : JsMap RequestManager.Request) (r r' : Run W)
  : Prop :=
  isRunning (att r') = isRunning (att r) /\
  (forall kv, kv ∈ pendingRequests (att r') -> kv ∈ pendingRequests (att r))
  /\
  processedTransactions (att r) ⊆ processedTransactions (att r') /\
  exists new,
    submitted r' = submitted r ++ new /\ Forall (attests c0) new.

(** From [r] to [r'] the cache, the record of submissions and the chain
    are as they were. *)
Definition untouched {W} (r r' : Run W) : Prop :=
  pendingRequests (att r') = pendingRequests (att r) /\
  submitted r' = submitted r /\
  chain r' = chain r.

Definition is_Elsewhere {W} (t : Tick W) : bool :=
  match t with Elsewhere _ => true | _ => false end.

End Schedule.

(** ** The backend routes *)

Module Backend.
Import Stdlib.Strings.Ascii.

(** *** routes/requests.js *)

(** [['PENDING', 'PAID', 'CANCELLED', 'EXPIRED'][request.status] ||
    'UNKNOWN'], for a status that is an integer. *)
Definition statusText (status : Z) : string :=
  if 0 <=? status
  then default "UNKNOWN"
         (["PENDING"; "PAID"; "CANCELLED"; "EXPIRED"] !! Z.to_nat status)
  else "UNKNOWN".

(** [for (let i = from; i >= to; i--) requestIds.push(i)] *)
Definition countdown (from to : Z) : list Z :=
  (fun k => from - Z.of_nat k) <$> seq 0 (Z.to_nat (from - to + 1)).

(** The identifiers the route [/:chainId/recent/:limit?] asks the contract
    for. [limit] is what [parseInt] made of the parameter ([None] for NaN,
    with which every comparison is false); the count is what
    [getTotalRequests] answered. *)
Definition recentRequestIds (limit : option Z) (totalRequests : Z)
  : result (list Z) :=
  if totalRequests =? 0 then Ok []
  else
    n ← Attestor.toNumber totalRequests ;
    match limit with
    | Some l =>
        let requestLimit := Z.min l 100 in
        let startId := Z.max 1 (n - requestLimit + 1) in
        Ok (countdown n startId)
    | None => Ok []
    end.

(** *** routes/xrpl.js *)

Definition char_between (lo hi c : ascii) : bool :=
  (nat_of_ascii lo <=? nat_of_ascii c)%nat
  && (nat_of_ascii c <=? nat_of_ascii hi)%nat.

(** The class [[A-HJ-NP-Z0-9]]. *)
Definition address_char (c : ascii) : bool :=
  (char_between "A" "H" c || char_between "J" "N" c
   || char_between "P" "Z" c || char_between "0" "9" c)%char.

(** [address.match(/^r[A-HJ-NP-Z0-9]{25,34}$/)] is not null. *)
Definition isValidXRPLAddress (address : string) : bool :=
  match address with
  | String "r"%char body =>
      forallb address_char (String.list_ascii_of_string body)
      && (25 <=? String.length body)%nat && (String.length body <=? 34)%nat
  | _ => false
  end.

End Backend.

(** * Properties *)

(** ** Reasoning principles for [result] and checked arithmetic *)

Lemma bind_inv_Ok {A B} (r : result A) (f : A -> result B) (b : B) :
  (r ≫= f) = Ok b -> exists a, r = Ok a /\ f a = Ok b.
Proof. destruct r as [a|e]; [eauto | discriminate]. Qed.

Lemma require_inv_Ok cond reason u : require cond reason = Ok u -> cond = true.
Proof. destruct cond; [reflexivity | discriminate]. Qed.

(** Splits a successful chain of binds in [H] into its successful links. *)
Ltac inv_binds H :=
  repeat (cbv zeta in H;
          let x := fresh "x" in
          let Hx := fresh "Hx" in
          apply bind_inv_Ok in H as (x & Hx & H));
  repeat match goal with
         | Hr : require _ _ = Ok _ |- _ => apply require_inv_Ok in Hr
         end.

(** ** calculateXRPAmount *)

Module CalculateXRPAmount.
Import RequestManager Conversion.

Lemma XRP_identity e s a : calculateXRPAmount e s "XRP" a = Ok a.
Proof. reflexivity. Qed.

Lemma other_symbol e s sym a pa ta da px tx dx :
  sym <> "XRP" ->
  ftso_at e (ftsoRegistry s) sym = Ok (pa, ta, da) ->
  ftso_at e (ftsoRegistry s) "XRP" = Ok (px, tx, dx) ->
  calculateXRPAmount e s sym a =
    (require ((0 <? pa) && (0 <? px)) "Invalid price data" ;;
     if products_fit a pa da px dx
     then checked_div (a * pa * 10 ^ dx) (px * 10 ^ da)
     else Revert PANIC_OVERFLOW).
Proof.
  intros Hsym Ha Hx. unfold calculateXRPAmount.
  rewrite bool_decide_eq_false_2 by exact Hsym.
  rewrite Ha, Hx. cbn [mbind result_bind].
  destruct ((0 <? pa) && (0 <? px)); cbn [require mbind result_bind];
    [|reflexivity].
  unfold products_fit, checked_mul, checked_pow, checked.
  repeat match goal with
         | |- context [in_uint256 ?x] =>
             destruct (in_uint256 x); cbn [mbind result_bind andb];
             [|reflexivity]
         end.
  reflexivity.
Qed.

Lemma pow10_pos d : 0 <= d -> 0 < 10 ^ d.
Proof. intros. apply Z.pow_pos_nonneg; lia. Qed.

(** C10, as amended. For the symbol "XRP" the amount comes back unchanged
    whatever the registry does. For any other symbol for which the registry
    answers [(pa, _, da)] and, for "XRP", [(px, _, dx)]: the call reverts
    with "Invalid price data" when either price is zero; with both prices
    positive it returns [(a * pa * 10^dx) / (px * 10^da)], computed
    without rounding other than the final division, provided every
    intermediate product fits in 256 bits, and reverts with the arithmetic
    panic otherwise. *)
Theorem calculateXRPAmount_conversion :
  (forall e s a, calculateXRPAmount e s "XRP" a = Ok a) /\
  (forall e s sym a pa ta da px tx dx,
      sym <> "XRP" ->
      ftso_at e (ftsoRegistry s) sym = Ok (pa, ta, da) ->
      ftso_at e (ftsoRegistry s) "XRP" = Ok (px, tx, dx) ->
      (pa = 0 \/ px = 0 ->
       calculateXRPAmount e s sym a = Revert "Invalid price data") /\
      (0 < pa -> 0 < px -> 0 <= da ->
       products_fit a pa da px dx = true ->
       calculateXRPAmount e s sym a
       = Ok ((a * pa * 10 ^ dx) / (px * 10 ^ da))) /\
      (0 < pa -> 0 < px ->
       products_fit a pa da px dx = false ->
       calculateXRPAmount e s sym a = Revert PANIC_OVERFLOW)).
Proof.
  split; [exact XRP_identity|].
  intros e s sym a pa ta da px tx dx Hsym Ha Hx.
  rewrite (other_symbol e s sym a pa ta da px tx dx Hsym Ha Hx).
  repeat split.
  - intros [-> | ->]; [reflexivity|].
    rewrite andb_false_r. reflexivity.
  - intros Hpa Hpx Hda Hfit.
    rewrite (proj2 (Z.ltb_lt 0 pa) Hpa), (proj2 (Z.ltb_lt 0 px) Hpx), Hfit.
    cbn [andb require mbind result_bind]. unfold checked_div.
    pose proof (pow10_pos da Hda).
    rewrite (proj2 (Z.eqb_neq (px * 10 ^ da) 0)) by nia.
    reflexivity.
  - intros Hpa Hpx Hfit.
    rewrite (proj2 (Z.ltb_lt 0 pa) Hpa), (proj2 (Z.ltb_lt 0 px) Hpx), Hfit.
    reflexivity.
Qed.

(** One ether (18 decimals) at the mock prices: 2000 USD against 0.50 USD
    per XRP. *)
Lemma calculateXRPAmount_conversion_witness :
  calculateXRPAmount (Scenario.env 1 0) Scenario.fresh "ETH" (10 ^ 18)
  = Ok (4000 * 10 ^ 18).
Proof.
  pose proof (proj2 calculateXRPAmount_conversion (Scenario.env 1 0)
                Scenario.fresh "ETH"
                (10 ^ 18) 200000000 0 5 50000 0 5) as H.
  destruct H as (_ & H & _);
    [discriminate | reflexivity | reflexivity |].
  rewrite H; [reflexivity | lia | lia | lia | reflexivity].
Defined.

(** C10 as stated fails: "ETH" is a supported symbol and [2^255] is an
    amount, yet the call does not return the quotient: the first product
    overflows and the call reverts. *)
Lemma calculateXRPAmount_overflow_counterexample :
  supportedAssets Scenario.fresh !! "ETH" = Some true /\
  in_uint256 (2 ^ 255) = true /\
  calculateXRPAmount (Scenario.env 1 0) Scenario.fresh "ETH" (2 ^ 255)
    = Revert PANIC_OVERFLOW /\
  calculateXRPAmount (Scenario.env 1 0) Scenario.fresh "ETH" (2 ^ 255)
    <> Ok ((2 ^ 255 * 200000000 * 10 ^ 5) / (50000 * 10 ^ 5)).
Proof.
  assert (calculateXRPAmount (Scenario.env 1 0) Scenario.fresh "ETH" (2 ^ 255)
          = Revert PANIC_OVERFLOW) as H by (vm_compute; reflexivity).
  split; [vm_compute; reflexivity|]. split; [reflexivity|]. split; [exact H|].
  rewrite H. discriminate.
Qed.

End CalculateXRPAmount.

(** ** The status of a request *)

Module StatusMachine.
Import RequestManager.

Lemma request_at_set_request s i r j :
  request_at (set_request i r s) j
  = if bool_decide (i = j) then r else request_at s j.
Proof.
  unfold request_at, set_request. cbn [requests].
  case_bool_decide as Hij.
  - subst j. rewrite lookup_insert_eq. reflexivity.
  - rewrite lookup_insert_ne by exact Hij. reflexivity.
Qed.

Lemma submitPaymentAttestation_status e s i h amount t s' j :
  submitPaymentAttestation e s i h amount t = Ok s' ->
  status (request_at s i) = PENDING /\
  status (request_at s' j)
  = if bool_decide (i = j) then PAID else status (request_at s j).
Proof.
  unfold submitPaymentAttestation. intros H. inv_binds H.
  injection H as <-. rewrite request_at_set_request.
  split; [eapply bool_decide_eq_true_1; eassumption|].
  destruct (bool_decide (i = j)); reflexivity.
Qed.

Lemma cancelRequest_status e s i s' j :
  cancelRequest e s i = Ok s' ->
  status (request_at s i) = PENDING /\
  status (request_at s' j)
  = if bool_decide (i = j) then CANCELLED else status (request_at s j).
Proof.
  unfold cancelRequest. intros H. inv_binds H.
  injection H as <-. rewrite request_at_set_request.
  split; [eapply bool_decide_eq_true_1; eassumption|].
  destruct (bool_decide (i = j)); reflexivity.
Qed.

Lemma markExpired_status e s i s' j :
  markExpired e s i = Ok s' ->
  status (request_at s i) = PENDING /\
  status (request_at s' j)
  = if bool_decide (i = j) then EXPIRED else status (request_at s j).
Proof.
  unfold markExpired. intros H. inv_binds H.
  injection H as <-. rewrite request_at_set_request.
  split; [eapply bool_decide_eq_true_1; eassumption|].
  destruct (bool_decide (i = j)); reflexivity.
Qed.

(** One life-cycle transaction either leaves the status of request [j]
    alone or takes it from PENDING to the status the operation writes. *)
Lemma lifecycle_step e c s j target :
  lifecycle_target c = Some target ->
  status (request_at (step s (e, c)) j) = status (request_at s j) \/
  (status (request_at s j) = PENDING /\
   status (request_at (step s (e, c)) j) = target).
Proof.
  intros Hc. unfold step. cbn [fst snd].
  destruct c; try discriminate Hc; injection Hc as <-; cbn [call].
  - destruct (submitPaymentAttestation e s _requestId _txHash
                _paidAmountXRP _timestamp) as [s'|reason] eqn:E;
      cbn [mbind result_bind]; [|left; reflexivity].
    destruct (submitPaymentAttestation_status _ _ _ _ _ _ _ j E) as [Hp ->].
    case_bool_decide; [subst; right; auto | left; reflexivity].
  - destruct (cancelRequest e s _requestId) as [s'|reason] eqn:E;
      cbn [mbind result_bind]; [|left; reflexivity].
    destruct (cancelRequest_status _ _ _ _ j E) as [Hp ->].
    case_bool_decide; [subst; right; auto | left; reflexivity].
  - destruct (markExpired e s _requestId) as [s'|reason] eqn:E;
      cbn [mbind result_bind]; [|left; reflexivity].
    destruct (markExpired_status _ _ _ _ j E) as [Hp ->].
    case_bool_decide; [subst; right; auto | left; reflexivity].
Qed.

(** C7. Under submitPaymentAttestation, cancelRequest and markExpired the
    status of every request moves only from PENDING to PAID, from PENDING
    to CANCELLED or from PENDING to EXPIRED (each by its own operation),
    and a status other than PENDING survives every sequence of these
    operations unchanged. *)
Theorem status_one_way :
  (forall e c s j target,
      lifecycle_target c = Some target ->
      status (request_at (step s (e, c)) j) = status (request_at s j) \/
      (status (request_at s j) = PENDING /\
       status (request_at (step s (e, c)) j) = target /\
       target <> PENDING)) /\
  (forall tr s j,
      Forall (fun ec => is_Some (lifecycle_target (snd ec))) tr ->
      status (request_at s j) <> PENDING ->
      status (request_at (run tr s) j) = status (request_at s j)).
Proof.
  split.
  - intros e c s j target Hc.
    destruct (lifecycle_step e c s j target Hc) as [H | [H1 H2]];
      [left; exact H | right].
    repeat split; [exact H1 | exact H2 |].
    destruct c; try discriminate Hc; injection Hc as <-; discriminate.
  - intros tr. induction tr as [|[e c] tr IH]; intros s j Hall Hs;
      [reflexivity|].
    apply Forall_cons in Hall as [[target Hc] Hall]. cbn [snd] in Hc.
    cbn [run fold_left]. fold (run tr (step s (e, c))).
    destruct (lifecycle_step e c s j target Hc) as [H | [H _]];
      [|contradiction].
    rewrite <- H. apply IH; [exact Hall | rewrite H; exact Hs].
Qed.

(** Request 1 is paid: cancelling it, marking it expired and attesting
    it again change nothing. Request 2 is pending: its creator cancels
    it. *)
Lemma status_one_way_witness :
  let tr := [(Scenario.env Scenario.ALICE 20, CancelRequest 1);
             (Scenario.env Scenario.OWNER 20000, MarkExpired 1);
             (Scenario.env Scenario.WALLET 30,
              SubmitPaymentAttestation 1 "AB12" 1000000000 30)] in
  let cancel := (Scenario.env Scenario.ALICE 20, CancelRequest 2) in
  status (request_at (run tr Scenario.paid_then_pending) 1)
  = status (request_at Scenario.paid_then_pending 1) /\
  (status (request_at (step Scenario.two_pending cancel) 2)
   = status (request_at Scenario.two_pending 2) \/
   (status (request_at Scenario.two_pending 2) = PENDING /\
    status (request_at (step Scenario.two_pending cancel) 2) = CANCELLED /\
    CANCELLED <> PENDING)).
Proof.
  intros tr cancel. destruct status_one_way as [Hstep Hrun]. split.
  - apply Hrun.
    + repeat constructor; eexists; reflexivity.
    + vm_compute. discriminate.
  - apply Hstep. reflexivity.
Defined.

Example paid_stays_paid :
  status (request_at Scenario.paid_then_pending 1) = PAID /\
  status (request_at
            (step Scenario.two_pending
                  (Scenario.env Scenario.ALICE 20, CancelRequest 2)) 2)
  = CANCELLED.
Proof. split; vm_compute; reflexivity. Qed.

End StatusMachine.

(** ** Request identifiers *)

Module RequestIds.
Import RequestManager.

Lemma Counters_increment_small v :
  0 <= v -> v + 1 < UINT256_MOD -> Counters_increment v = v + 1.
Proof. intros. unfold Counters_increment. apply Z.mod_small. lia. Qed.

(** A request that passes [validRequest] is not stored under key 0 while
    nothing is stored there. *)
Lemma validRequest_nonzero s i u :
  requests s !! 0 = None -> validRequest s i = Ok u -> i <> 0.
Proof.
  intros H0 H ->. unfold validRequest in H. inv_binds H.
  unfold request_at in H. rewrite H0 in H. discriminate H.
Qed.

(** What one successful transaction does to the counter and to key 0. *)
Lemma call_counter e c s r s' :
  call e c s = Ok (r, s') ->
  requests s !! 0 = None ->
  0 <= requestIds s ->
  requestIds s + 1 < UINT256_MOD ->
  requests s' !! 0 = None /\
  match r with
  | Some i => i = requestIds s + 1 /\ requestIds s' = i
  | None => requestIds s' = requestIds s
  end.
Proof.
  intros H H0 Hlo Hhi.
  destruct c; cbn [call] in H; inv_binds H.
  - destruct x as [i s1]. injection H as <- <-.
    unfold createRequest in Hx. inv_binds Hx. injection Hx as <- <-.
    rewrite Counters_increment_small by assumption.
    cbn [requests requestIds push_userRequest set_request set_requestIds].
    rewrite lookup_insert_ne by lia. auto.
  - injection H as <- <-.
    unfold submitPaymentAttestation in Hx. inv_binds Hx.
    injection Hx as <-. cbn [requests requestIds set_request].
    rewrite lookup_insert_ne
      by (eapply validRequest_nonzero; eassumption).
    auto.
  - injection H as <- <-.
    unfold cancelRequest in Hx. inv_binds Hx.
    injection Hx as <-. cbn [requests requestIds set_request].
    rewrite lookup_insert_ne
      by (eapply validRequest_nonzero; eassumption).
    auto.
  - injection H as <- <-.
    unfold markExpired in Hx. inv_binds Hx.
    injection Hx as <-. cbn [requests requestIds set_request].
    rewrite lookup_insert_ne
      by (eapply validRequest_nonzero; eassumption).
    auto.
  - injection H as <- <-. unfold addAuthorizedAttestor in Hx.
    inv_binds Hx. injection Hx as <-. auto.
  - injection H as <- <-. unfold removeAuthorizedAttestor in Hx.
    inv_binds Hx. injection Hx as <-. auto.
  - injection H as <- <-. unfold addSupportedAsset in Hx.
    inv_binds Hx. injection Hx as <-. auto.
  - injection H as <- <-. unfold removeSupportedAsset in Hx.
    inv_binds Hx. injection Hx as <-. auto.
  - injection H as <- <-. unfold updateFtsoRegistry in Hx.
    inv_binds Hx. injection Hx as <-. auto.
  - injection H as <- <-. unfold transferOwnership in Hx.
    inv_binds Hx. injection Hx as <-. auto.
  - injection H as <- <-. unfold renounceOwnership in Hx.
    inv_binds Hx. injection Hx as <-. auto.
Qed.

(** Along a trace short enough for the counter not to wrap, the counter
    advances by one per created request, the identifiers handed out are
    consecutive, and key 0 stays empty. *)
Lemma run_counter tr :
  forall s,
    requests s !! 0 = None ->
    0 <= requestIds s ->
    requestIds s + Z.of_nat (length tr) < UINT256_MOD ->
    requests (run tr s) !! 0 = None /\
    requestIds (run tr s)
    = requestIds s + Z.of_nat (length (created_ids tr s)) /\
    created_ids tr s
    = seqZ (requestIds s + 1) (Z.of_nat (length (created_ids tr s))) /\
    (length (created_ids tr s) <= length tr)%nat.
Proof.
  induction tr as [|[e c] tr IH]; intros s H0 Hlo Hhi.
  - cbn. rewrite Z.add_0_r. repeat split; [exact H0 | lia].
  - cbn [length] in Hhi. cbn [run fold_left created_ids fst snd].
    fold (run tr (step s (e, c))).
    destruct (call e c s) as [[r s']|reason] eqn:E.
    + assert (step s (e, c) = s') as ->
          by (unfold step; cbn [fst snd]; rewrite E; reflexivity).
      destruct (call_counter e c s r s' E H0 Hlo ltac:(lia)) as [H0' Hr].
      destruct r as [i|].
      * destruct Hr as [-> Hs'].
        destruct (IH s' H0' ltac:(lia) ltac:(lia)) as (I1 & I2 & I3 & I4).
        cbn [length]. rewrite I2, Hs'.
        split; [exact I1|]. split; [lia|]. split; [|lia].
        rewrite (seqZ_cons (requestIds s + 1)) by lia. f_equal.
        rewrite I3 at 1. rewrite Hs'. f_equal; lia.
      * destruct (IH s' H0' ltac:(lia) ltac:(lia)) as (I1 & I2 & I3 & I4).
        cbn [length]. rewrite I2, Hr.
        split; [exact I1|]. split; [reflexivity|]. split; [|lia].
        rewrite I3 at 1. rewrite Hr. reflexivity.
    + assert (step s (e, c) = s) as ->
          by (unfold step; cbn [fst snd]; rewrite E; reflexivity).
      destruct (IH s H0 Hlo ltac:(lia)) as (I1 & I2 & I3 & I4).
      cbn [length]. split; [exact I1|]. split; [exact I2|].
      split; [exact I3|lia].
Qed.

(** The identifiers handed out along a trace in two parts. *)
Lemma created_ids_app tr1 tr2 :
  forall s,
    created_ids (tr1 ++ tr2) s
    = created_ids tr1 s ++ created_ids tr2 (run tr1 s).
Proof.
  induction tr1 as [|ec tr1 IH]; intros s; [reflexivity|].
  cbn [app created_ids run fold_left]. fold (run tr1 (step s ec)).
  rewrite IH. destruct (call (fst ec) (snd ec) s) as [[[i|] s']|];
    reflexivity.
Qed.

(** [createRequest] succeeds when its five checks pass, and returns the
    incremented counter. *)
Lemma createRequest_succeeds e s rcp sym amount exp bp msg :
  rcp <> "" ->
  supportedAssets s !! sym = Some true ->
  0 < amount ->
  block_timestamp e < exp ->
  bp <= 1000 ->
  exists s',
    createRequest e s rcp sym amount exp bp msg
    = Ok (Counters_increment (requestIds s), s') /\
    requestIds s' = Counters_increment (requestIds s).
Proof.
  intros Hrcp Hsym Hamount Hexp Hbp. unfold createRequest.
  assert ((0 <? Z.of_nat (String.length rcp)) = true) as ->.
  { destruct rcp; [contradiction Hrcp; reflexivity | reflexivity]. }
  rewrite Hsym. cbn [default from_option id].
  rewrite (proj2 (Z.ltb_lt 0 amount) Hamount).
  rewrite (proj2 (Z.ltb_lt _ _) Hexp), (proj2 (Z.leb_le _ _) Hbp).
  cbn [require mbind result_bind]. cbv zeta.
  eexists. split; reflexivity.
Qed.

(** C9. From a freshly constructed contract, along any trace of fewer than
    [2^256 - 1] transactions: the identifiers handed out so far are
    1, 2, ..., n in this order and [getTotalRequests] is n. A further
    [createRequest] whose five checks pass succeeds and returns n + 1,
    which is what [getTotalRequests] answers right after it, and the
    identifiers handed out are then 1, ..., n + 1; so the first request
    gets identifier 1. No successful [createRequest] returns anything but
    n + 1, and [getRequest(0)] reverts with "Request does not exist". *)
Theorem request_ids_start_at_one e0 registry tr :
  Z.of_nat (length tr) < UINT256_MOD - 1 ->
  let s0 := constructor e0 registry in
  let s := run tr s0 in
  let n := Z.of_nat (length (created_ids tr s0)) in
  created_ids tr s0 = seqZ 1 n /\
  getTotalRequests s = n /\
  (forall e rcp sym amount exp bp msg,
      rcp <> "" ->
      supportedAssets s !! sym = Some true ->
      0 < amount ->
      block_timestamp e < exp ->
      bp <= 1000 ->
      exists s',
        createRequest e s rcp sym amount exp bp msg = Ok (n + 1, s') /\
        getTotalRequests s' = n + 1 /\
        created_ids (tr ++ [(e, CreateRequest rcp sym amount exp bp msg)])
                    s0
        = seqZ 1 (n + 1)) /\
  (forall e rcp sym amount exp bp msg i s',
      createRequest e s rcp sym amount exp bp msg = Ok (i, s') ->
      i = n + 1 /\ getTotalRequests s' = i) /\
  getRequest s 0 = Revert "Request does not exist".
Proof.
  intros Hlen s0 s n.
  destruct (run_counter tr s0) as (I1 & I2 & I3 & I4);
    [apply lookup_empty | cbn; lia | cbn; lia |].
  change (requestIds s0) with 0 in I2, I3.
  rewrite Z.add_0_l in I2, I3. fold s in I1, I2. fold n in I2, I3.
  split; [exact I3|]. split; [exact I2|]. split; [|split].
  - intros e rcp sym amount exp bp msg Hrcp Hsym Hamount Hexp Hbp.
    destruct (createRequest_succeeds e s rcp sym amount exp bp msg
                Hrcp Hsym Hamount Hexp Hbp) as (s' & Hc & Hs').
    rewrite Counters_increment_small in Hc, Hs' by lia.
    rewrite I2 in Hc, Hs'. exists s'.
    split; [exact Hc|]. split; [exact Hs'|].
    rewrite created_ids_app. fold s0 s. rewrite I3 at 1.
    cbn [created_ids call fst snd]. rewrite Hc.
    cbn [mbind result_bind].
    rewrite (seqZ_app 1 n 1) by lia. f_equal.
    rewrite seqZ_cons by lia. cbn [Z.pred Z.add Z.pos_sub].
    rewrite seqZ_nil by lia. f_equal. lia.
  - intros e rcp sym amount exp bp msg i s' H.
    pose proof (call_counter e (CreateRequest rcp sym amount exp bp msg)
                  s (Some i) s') as Hc.
    cbn [call] in Hc. rewrite H in Hc.
    destruct (Hc eq_refl I1) as [_ [Hi Hs']]; [lia | lia |].
    unfold getTotalRequests. split; [lia | exact Hs'].
  - unfold getRequest, validRequest, request_at. rewrite I1, I2.
    rewrite (proj2 (Z.leb_le 0 n)) by lia. reflexivity.
Qed.

(** Four transactions on a fresh contract, the third of which reverts
    (empty recipient): the two requests created got 1 and 2, and the
    next one gets 3. On the fresh contract itself the first request
    gets 1. *)
Lemma request_ids_start_at_one_witness :
  let tr := [(Scenario.env Scenario.OWNER 1,
              AddAuthorizedAttestor Scenario.WALLET);
             (Scenario.env Scenario.ALICE 2, Scenario.ask "dinner");
             (Scenario.env Scenario.ALICE 3,
              CreateRequest "" "XRP" 5 10000 100 "nobody");
             (Scenario.env Scenario.ALICE 4, Scenario.ask "taxi")] in
  created_ids tr Scenario.fresh = [1; 2] /\
  getTotalRequests (run tr Scenario.fresh) = 2 /\
  (exists s',
      createRequest (Scenario.env Scenario.ALICE 5) (run tr Scenario.fresh)
                    "rXYZ" "XRP" 1000000000 10000 100 "coffee"
      = Ok (3, s') /\
      getTotalRequests s' = 3) /\
  (exists s',
      createRequest (Scenario.env Scenario.ALICE 2) Scenario.fresh
                    "rXYZ" "XRP" 1000000000 10000 100 "dinner"
      = Ok (1, s') /\
      getTotalRequests s' = 1) /\
  getRequest (run tr Scenario.fresh) 0 = Revert "Request does not exist".
Proof.
  intros tr.
  assert (Z.of_nat (length (created_ids tr Scenario.fresh)) = 2) as Hn
      by (vm_compute; reflexivity).
  destruct (request_ids_start_at_one (Scenario.env Scenario.OWNER 0)
              Scenario.REGISTRY tr) as (H1 & H2 & H3 & _ & H5);
    [reflexivity|].
  destruct (request_ids_start_at_one (Scenario.env Scenario.OWNER 0)
              Scenario.REGISTRY []) as (_ & _ & F3 & _);
    [reflexivity|].
  fold Scenario.fresh in H1, H2, H3, H5, F3.
  rewrite Hn in H1, H2, H3.
  split; [exact H1|]. split; [exact H2|]. split; [|split; [|exact H5]].
  - destruct (H3 (Scenario.env Scenario.ALICE 5) "rXYZ" "XRP" 1000000000
                 10000 100 "coffee") as (s' & Hc & Hs' & _);
      [discriminate | vm_compute; reflexivity | lia
       | vm_compute; reflexivity | lia |].
    exists s'. split; [exact Hc | exact Hs'].
  - destruct (F3 (Scenario.env Scenario.ALICE 2) "rXYZ" "XRP" 1000000000
                 10000 100 "dinner") as (s' & Hc & Hs' & _);
      [discriminate | vm_compute; reflexivity | lia
       | vm_compute; reflexivity | lia |].
    exists s'. split; [exact Hc | exact Hs'].
Defined.

End RequestIds.

(** ** The matcher *)

Module Matcher.
Import RequestManager Attestor Designed Scenario.

(** A string is never strictly equal to a BigNumber. *)
Lemma strict_equals_string_BigNumber m n :
  strict_equals (JsString m) (JsBigNumber n) = false.
Proof. reflexivity. Qed.

(** So the comparison of the amounts fails for every transaction and
    every cached request, and with it the conjunction. *)
Lemma matchesRequest_false tx request : matchesRequest tx request = false.
Proof.
  unfold matchesRequest. rewrite strict_equals_string_BigNumber.
  apply andb_false_r.
Qed.

(** C1, as amended. The matcher accepts a transaction for a request only
    if the destination is the request's recipient address and the amount
    is the request's asset amount: no price is converted and no tolerance
    applied, and two requests with one recipient and one asset amount get
    the same answer whatever their asset and slippage. For the request of
    1,000 XRP at 1% slippage, payments of 990 XRP and of 989.99 XRP to the
    recipient do not match. *)
Theorem matchesRequest_exact_amount :
  (forall tx request,
      Destination tx <> recipientXRPL request \/
      Amount tx <> assetAmount request ->
      matchesRequest tx request = false) /\
  (forall tx request request',
      recipientXRPL request' = recipientXRPL request ->
      assetAmount request' = assetAmount request ->
      matchesRequest tx request' = matchesRequest tx request) /\
  matchesRequest (payment "AB12" 990000000) request42 = false /\
  matchesRequest (payment "AB12" 989990000) request42 = false.
Proof.
  split; [|split; [|split; reflexivity]].
  - intros tx request [Hd | Ha]; unfold matchesRequest.
    + rewrite bool_decide_eq_false_2 by exact Hd. reflexivity.
    + apply andb_false_r.
  - intros tx request request' Hr Ha. unfold matchesRequest.
    rewrite Hr, Ha. reflexivity.
Qed.

(** C1 as stated fails. The request asks for 1,000 XRP at 1% slippage, so
    the least acceptable amount by the contract's formula is 990 XRP; a
    payment of exactly 990 XRP to the recipient satisfies the designed
    predicate and is rejected by the matcher. *)
Lemma matchesRequest_rejects_990_counterexample :
  minAcceptableAmount (env WALLET 10) fresh request42 = Ok 990000000 /\
  designed_match (env WALLET 10) fresh (payment "AB12" 990000000) request42
    = true /\
  designed_match (env WALLET 10) fresh (payment "AB12" 989990000) request42
    = false /\
  matchesRequest (payment "AB12" 990000000) request42 = false /\
  ~ (matchesRequest (payment "AB12" 990000000) request42 = true <->
     designed_match (env WALLET 10) fresh (payment "AB12" 990000000)
                    request42 = true).
Proof.
  assert (designed_match (env WALLET 10) fresh (payment "AB12" 990000000)
            request42 = true) as Hd by (vm_compute; reflexivity).
  split; [vm_compute; reflexivity|]. split; [exact Hd|].
  split; [vm_compute; reflexivity|]. split; [reflexivity|].
  intros [_ H]. specialize (H Hd). discriminate H.
Qed.

End Matcher.

(** ** The JavaScript Map *)

Module JsMapFacts.
Import Attestor.

Lemma Map_has_false {V} k (m : JsMap V) v :
  Map_has k m = false -> (k, v) ∉ m.
Proof.
  unfold Map_has. induction m as [|[k' v'] m IH]; intros H Hin.
  - apply elem_of_nil in Hin. exact Hin.
  - cbn [existsb fst] in H. apply orb_false_iff in H as [H1 H2].
    apply elem_of_cons in Hin as [Heq|Hin]; [|exact (IH H2 Hin)].
    injection Heq as -> ->. rewrite Z.eqb_refl in H1. discriminate H1.
Qed.

Lemma elem_of_Map_set {V} i (v : V) (m : JsMap V) kv :
  kv ∈ Map_set i v m -> kv = (i, v) \/ kv ∈ m.
Proof.
  unfold Map_set. destruct (Map_has i m).
  - rewrite !list_elem_of_In, in_map_iff. intros ([k' v'] & <- & Hin).
    cbn [fst]. destruct (k' =? i); [left; reflexivity|].
    right. exact Hin.
  - rewrite elem_of_app, list_elem_of_singleton. tauto.
Qed.

End JsMapFacts.

(** ** The service, over any chain client *)

Module ServiceFacts.
Import RequestManager Attestor Schedule JsMapFacts.

Section WithClient.
Context {W : Type} {client : ChainClient W}.

(** *** checkPaymentTransaction *)

(** No entry is matched, so the body of the loop does nothing. *)
Lemma check_one_idle tx (r : Run W) entry : check_one tx r entry = r.
Proof.
  destruct entry as [k v]. unfold check_one.
  rewrite Matcher.matchesRequest_false. reflexivity.
Qed.

Lemma check_fold_idle tx l :
  forall r : Run W, fold_left (check_one tx) l r = r.
Proof.
  induction l as [|entry l IH]; intros r; [reflexivity|].
  cbn [fold_left]. rewrite check_one_idle. apply IH.
Qed.

Lemma checkPaymentTransaction_idle tx (r : Run W) :
  checkPaymentTransaction tx r = r.
Proof. unfold checkPaymentTransaction. apply check_fold_idle. Qed.

(** *** processTransaction *)

Lemma processTransaction_seen (r : Run W) tx :
  hash tx ∈ processedTransactions (att r) -> processTransaction r tx = r.
Proof.
  intros H. unfold processTransaction.
  rewrite bool_decide_eq_true_2 by exact H. reflexivity.
Qed.

Lemma processTransaction_marks (r : Run W) tx :
  hash tx ∈ processedTransactions (att (processTransaction r tx)).
Proof.
  unfold processTransaction. case_bool_decide as H; [exact H|].
  cbn [att add_processedTransaction processedTransactions].
  set_solver.
Qed.

(** A transaction that is new leaves its hash and nothing else. *)
Lemma processTransaction_new (r : Run W) tx :
  hash tx ∉ processedTransactions (att r) ->
  processTransaction r tx
  = mkRun (add_processedTransaction (hash tx) (att r)) (chain r)
          (submitted r).
Proof.
  intros H. unfold processTransaction.
  rewrite bool_decide_eq_false_2 by exact H.
  rewrite checkPaymentTransaction_idle. case_bool_decide; reflexivity.
Qed.

Lemma untouched_refl (r : Run W) : untouched r r.
Proof. repeat split. Qed.

Lemma untouched_trans (r1 r2 r3 : Run W) :
  untouched r1 r2 -> untouched r2 r3 -> untouched r1 r3.
Proof.
  intros (A1 & A2 & A3) (B1 & B2 & B3). repeat split; congruence.
Qed.

Lemma fold_untouched {A} (f : Run W -> A -> Run W) :
  (forall r x, untouched r (f r x)) ->
  forall l r, untouched r (fold_left f l r).
Proof.
  intros Hf l. induction l as [|x l IH]; intros r;
    [apply untouched_refl|].
  cbn [fold_left]. eapply untouched_trans; [apply Hf | apply IH].
Qed.

Lemma processTransaction_untouched (r : Run W) tx :
  untouched r (processTransaction r tx).
Proof.
  destruct (decide (hash tx ∈ processedTransactions (att r))) as [H|H].
  - rewrite processTransaction_seen by exact H. apply untouched_refl.
  - rewrite processTransaction_new by exact H. repeat split.
Qed.

Lemma processLedger_untouched x (r : Run W) i :
  untouched r (processLedger x r i).
Proof.
  unfold processLedger.
  destruct (ledger x i) as [[txs|]|]; try apply untouched_refl.
  apply fold_untouched. intros r0 tx. apply processTransaction_untouched.
Qed.

Lemma xrplMonitoringTick_untouched x (r : Run W) :
  untouched r (xrplMonitoringTick x r).
Proof.
  unfold xrplMonitoringTick.
  destruct (negb (isRunning (att r))); [apply untouched_refl|].
  unfold checkXRPLTransactions.
  destruct (server_info x) as [currentLedger|]; [|apply untouched_refl].
  match goal with
  | |- untouched _ (mkRun _ (chain ?r') _) =>
      assert (untouched r r') as (A1 & A2 & A3)
  end.
  { destruct (lastProcessedLedger (att r)) as [last|];
      [|apply untouched_refl].
    destruct (_ && _); [|apply untouched_refl].
    apply fold_untouched. intros r0 i. apply processLedger_untouched. }
  split; [exact A1|]. split; [exact A2 | exact A3].
Qed.

(** *** checkXRPLTransactions *)

(** Whenever [server_info] answers, the watermark becomes its answer. *)
Lemma checkXRPLTransactions_watermark x (r : Run W) currentLedger :
  server_info x = Ok currentLedger ->
  lastProcessedLedger (att (checkXRPLTransactions x r))
  = Some currentLedger.
Proof. unfold checkXRPLTransactions. intros ->. reflexivity. Qed.

(** *** The two loops over request identifiers *)

(** What the body of the loops adds to the cache was fetched under the
    identifier of the iteration and carries status code 1, which is
    PAID. *)
Lemma load_one_adds (w : W) m i kv :
  kv ∈ load_one w m i ->
  kv ∈ m \/
  (fst kv = i /\ getRequest w i = Ok (snd kv) /\ status (snd kv) = PAID).
Proof.
  unfold load_one. destruct (getRequest w i) as [request|]; [|auto].
  destruct (status request) eqn:E; cbn [status_code Z.eqb]; auto.
  intros H. apply elem_of_Map_set in H as [-> | H]; [|auto].
  right. cbn [fst snd]. auto.
Qed.

Lemma load_fold_adds (w : W) ids :
  forall m kv,
    kv ∈ fold_left (load_one w) ids m ->
    kv ∈ m \/
    (fst kv ∈ ids /\ getRequest w (fst kv) = Ok (snd kv) /\
     status (snd kv) = PAID).
Proof.
  induction ids as [|i ids IH]; intros m kv H; [auto|].
  cbn [fold_left] in H. apply IH in H as [H | (H1 & H2 & H3)].
  - apply load_one_adds in H as [H | (H1 & H2 & H3)]; [auto|].
    right. subst i. split; [apply list_elem_of_here | auto].
  - right. split; [apply list_elem_of_further; exact H1 | auto].
Qed.

(** Nothing pending enters the cache at load time, and nothing under
    the identifier of the newest request. *)
Lemma loadPendingRequests_adds cfg (w : W) a a' n kv :
  getTotalRequests w = Ok n ->
  loadPendingRequests cfg w a = Ok a' ->
  kv ∈ pendingRequests a' ->
  kv ∈ pendingRequests a \/
  (0 <= fst kv < n /\ getRequest w (fst kv) = Ok (snd kv) /\
   status (snd kv) = PAID).
Proof.
  intros Hn H Hin. unfold loadPendingRequests in H. rewrite Hn in H.
  cbn [mbind result_bind] in H. inv_binds H. injection H as <-.
  unfold toNumber in Hx.
  destruct (_ && _); [injection Hx as <-|discriminate].
  cbn [pendingRequests set_pendingRequests] in Hin.
  apply load_fold_adds in Hin as [Hin | (H1 & H2 & H3)]; [auto|].
  right. apply elem_of_seqZ in H1. split; [lia | auto].
Qed.

(** Likewise on a refresh tick. *)
Lemma requestMonitoringTick_adds (w : W) a n kv :
  getTotalRequests w = Ok n ->
  kv ∈ pendingRequests (requestMonitoringTick w a) ->
  kv ∈ pendingRequests a \/
  (Map_size (pendingRequests a) <= fst kv < n /\
   getRequest w (fst kv) = Ok (snd kv) /\ status (snd kv) = PAID).
Proof.
  intros Hn Hin. unfold requestMonitoringTick in Hin.
  destruct (negb (isRunning a)); [auto|]. rewrite Hn in Hin.
  cbn [mbind result_bind] in Hin. unfold toNumber in Hin.
  destruct (_ && _); [|auto].
  cbn [pendingRequests set_pendingRequests] in Hin.
  apply load_fold_adds in Hin as [Hin | (H1 & H2 & H3)]; [auto|].
  right. apply elem_of_seqZ in H1. split; [lia | auto].
Qed.

End WithClient.

End ServiceFacts.

(** ** Deduplication by hash *)

Module Dedup.
Import RequestManager Attestor ServiceFacts Scenario.

(** C4. A transaction whose hash is in the processed set is skipped: the
    service, the chain and the record of submissions stay as they are.
    Every transaction that is processed leaves its hash in the set, so of
    two transactions with one hash the second is skipped, and the two
    together cause at most one submission. *)
Theorem processed_transaction_is_skipped
    {W : Type} {client : ChainClient W} :
  (forall (r : Run W) tx,
      hash tx ∈ processedTransactions (att r) ->
      processTransaction r tx = r) /\
  (forall (r : Run W) tx tx',
      hash tx' = hash tx ->
      fold_left processTransaction [tx; tx'] r = processTransaction r tx) /\
  (forall (r : Run W) tx tx',
      hash tx' = hash tx ->
      (length (submitted (fold_left processTransaction [tx; tx'] r))
       <= length (submitted r) + 1)%nat).
Proof.
  assert (forall (r : Run W) tx tx',
             hash tx' = hash tx ->
             fold_left processTransaction [tx; tx'] r
             = processTransaction r tx) as Hpair.
  { intros r tx tx' Heq. cbn [fold_left].
    apply processTransaction_seen. rewrite Heq.
    apply processTransaction_marks. }
  split; [exact processTransaction_seen|]. split; [exact Hpair|].
  intros r tx tx' Heq. rewrite (Hpair r tx tx' Heq).
  destruct (processTransaction_untouched r tx) as (_ & -> & _). lia.
Qed.

(** The payment of request 1's amount to its recipient, fetched twice
    by the service that holds request 1 in its cache. *)
Lemma processed_transaction_is_skipped_witness :
  let tx := payment "AB12" 1000000000 in
  let r1 := processTransaction run0 tx in
  List.map fst (pendingRequests (att run0)) = [1] /\
  hash tx ∈ processedTransactions (att r1) /\
  processTransaction r1 tx = r1 /\
  fold_left processTransaction [tx; tx] run0 = r1 /\
  (length (submitted (fold_left processTransaction [tx; tx] run0))
   <= 0 + 1)%nat.
Proof.
  intros tx r1.
  destruct (@processed_transaction_is_skipped Deployed _) as (H1 & H2 & H3).
  assert (hash tx ∈ processedTransactions (att r1)) as Hseen.
  { apply (bool_decide_eq_true_1
             (hash tx ∈ processedTransactions (att r1))).
    vm_compute. reflexivity. }
  split; [vm_compute; reflexivity|]. split; [exact Hseen|].
  split; [apply H1; exact Hseen|]. split; [apply H2; reflexivity|].
  apply (H3 run0 tx tx). reflexivity.
Defined.

End Dedup.

(** ** A submission that fails *)

Module FailedSubmission.
Import RequestManager Attestor Schedule ServiceFacts Scenario.


End FailedSubmission.

(** ** The request cache *)

Module Cache.
Import RequestManager Attestor ServiceFacts Scenario.

(** C3 at two failing inputs, batch size 10. Over a contract whose only
    request, number 1, is PENDING, the load leaves the cache empty: the
    loop asks for request 0 alone. Over a contract where request 1 is PAID
    and request 2 is PENDING, the load caches request 1 and not
    request 2. *)
Theorem loadPendingRequests_caches_paid_not_pending :
  RequestManager.getTotalRequests one_pending = 1 /\
  status (request_at one_pending 1) = PENDING /\
  loadPendingRequests config (chain_at 10 one_pending) Attestor.constructor
    = Ok Attestor.constructor /\
  RequestManager.getTotalRequests paid_then_pending = 2 /\
  status (request_at paid_then_pending 1) = PAID /\
  status (request_at paid_then_pending 2) = PENDING /\
  loadPendingRequests config (chain_at 10 paid_then_pending)
                      Attestor.constructor
    = Ok (set_pendingRequests [(1, request_at paid_then_pending 1)]
                              Attestor.constructor).
Proof. repeat split; vm_compute; reflexivity. Qed.

(** C5 at a failing input. The service starts over the contract with one
    pending request and its cache is empty. A second request is created.
    On the next refresh tick the loop runs over the identifiers 0 and 1;
    request 2, the new one, is not fetched, and the cache stays empty. *)
Theorem requestMonitoringTick_skips_new_request :
  let a0 := started 100 (chain_at 10 one_pending) in
  let a1 := requestMonitoringTick (chain_at 20 two_pending) a0 in
  isRunning a0 = true /\
  pendingRequests a0 = [] /\
  RequestManager.getTotalRequests two_pending = 2 /\
  status (request_at two_pending 2) = PENDING /\
  is_ok (RequestManager.getRequest two_pending 2) = true /\
  pendingRequests a1 = [].
Proof. cbv zeta. repeat split; vm_compute; reflexivity. Qed.

End Cache.

(** ** The ledger watermark *)

Module Watermark.
Import RequestManager Attestor ServiceFacts Scenario.

(** C6 at a failing input. The watermark is 100; the node reports 90 as
    its validated ledger; after the tick the watermark is 90. *)
Theorem watermark_follows_server_down :
  let w := chain_at 10 one_pending in
  let r0 := mkRun (started 100 w) w [] in
  let r1 := xrplMonitoringTick (xrpl 90 []) r0 in
  lastProcessedLedger (att r0) = Some 100 /\
  lastProcessedLedger (att r1) = Some 90.
Proof. cbv zeta. split; vm_compute; reflexivity. Qed.

End Watermark.

(** ** Start-up *)

Module Startup.
Import RequestManager Attestor ServiceFacts Scenario.

(** C8. When the signing key or the contract address is undefined or
    empty, [start] ends in [process.exit(1)], whatever the collaborators
    do. When both are there, [initializeFlare] goes on to build the
    provider, the wallet and the contract handle, and fails only if that
    fails. *)
Theorem missing_configuration_is_fatal
    {W : Type} {client : ChainClient W} :
  (forall cfg x ethers (w : W) a,
      falsy_string (privateKey cfg) = true \/
      falsy_string (requestManagerAddress cfg) = true ->
      start cfg x ethers w a = Exited 1) /\
  (forall cfg ethers key addr,
      privateKey cfg = Some key -> key <> "" ->
      requestManagerAddress cfg = Some addr -> addr <> "" ->
      initializeFlare cfg ethers = ethers key addr).
Proof.
  split.
  - intros cfg x ethers w a H. unfold start, initialize.
    destruct (initializeXRPL x a) as [a1|reason];
      cbn [mbind result_bind]; [|reflexivity].
    unfold initializeFlare.
    destruct H as [-> | H]; cbn [negb require mbind result_bind];
      [reflexivity|].
    destruct (negb (falsy_string (privateKey cfg)));
      cbn [require mbind result_bind]; [|reflexivity].
    rewrite H. reflexivity.
  - intros cfg ethers key addr Hkey Hk Haddr Ha. unfold initializeFlare.
    rewrite Hkey, Haddr. cbn [falsy_string default].
    rewrite !bool_decide_eq_false_2 by assumption. reflexivity.
Qed.

Lemma missing_configuration_is_fatal_witness :
  start (mkConfig None (Some "0xmanager") 10) (xrpl 100 []) ethers_ok
        (chain_at 10 one_pending) Attestor.constructor
    = Exited 1 /\
  start (mkConfig (Some "0xkey") (Some "") 10) (xrpl 100 []) ethers_ok
        (chain_at 10 one_pending) Attestor.constructor
    = Exited 1 /\
  initializeFlare config ethers_ok = Ok tt.
Proof.
  destruct (@missing_configuration_is_fatal Deployed _) as [H1 H2].
  split; [|split].
  - apply H1. left. reflexivity.
  - apply H1. right. reflexivity.
  - rewrite (H2 config ethers_ok "0xkey" "0xmanager");
      [reflexivity | reflexivity | discriminate | reflexivity
      | discriminate].
Defined.

End Startup.

(** ** The contract's storage along a trace *)

Module Storage.
Import RequestManager Invariants.

Lemma storage_ok_constructor e registry : storage_ok (constructor e registry).
Proof.
  split; [cbn; lia|]. intros i. cbn [constructor requestIds requests].
  split; [lia|]. intros _. apply lookup_empty.
Qed.

(** A request that passes [validRequest] sits under an identifier in use. *)
Lemma validRequest_in_use s i u :
  storage_ok s -> validRequest s i = Ok u ->
  1 <= i <= requestIds s /\ creator (request_at s i) <> 0.
Proof.
  intros [Hn Hs] H. unfold validRequest in H. inv_binds H.
  apply Z.leb_le in Hx. apply negb_true_iff, Z.eqb_neq in H.
  split; [|exact H]. split; [|exact Hx].
  destruct (Z_lt_le_dec i 1) as [Hlt|]; [|lia].
  destruct (Hs i) as [_ Hnone]. unfold request_at in H.
  rewrite Hnone in H by lia. contradiction H. reflexivity.
Qed.

(** Overwriting a request in use by one that is fine keeps the storage
    fine. *)
Lemma storage_ok_set_request s i r :
  storage_ok s -> 1 <= i <= requestIds s -> stored_ok i r ->
  storage_ok (set_request i r s).
Proof.
  intros [Hn Hs] Hi Hr. split; [exact Hn|]. intros j.
  cbn [set_request requestIds requests]. destruct (Hs j) as [Hin Hout].
  split.
  - intros Hj. destruct (decide (i = j)) as [<-|Hne].
    + exists r. rewrite lookup_insert_eq. auto.
    + rewrite lookup_insert_ne by exact Hne. auto.
  - intros Hj. rewrite lookup_insert_ne by lia. auto.
Qed.

Lemma stored_request s i :
  storage_ok s -> 1 <= i <= requestIds s -> stored_ok i (request_at s i).
Proof.
  intros [_ Hs] Hi. destruct (Hs i) as [Hin _].
  destruct (Hin Hi) as (r & Hr & Hok). unfold request_at. rewrite Hr.
  exact Hok.
Qed.

(** From the checks a life-cycle function has passed: the identifier is in
    use ([Hi]) and the request was pending ([Hpending]). *)
Ltac in_use Hok :=
  match goal with
  | Hv : validRequest ?s ?i = Ok ?u |- _ =>
      destruct (validRequest_in_use s i u Hok Hv) as [Hi Hcreator]
  end;
  match goal with
  | Hp : bool_decide (status _ = PENDING) = true |- _ =>
      apply bool_decide_eq_true_1 in Hp; rename Hp into Hpending
  end.

Lemma storage_ok_call e c s r s' :
  storage_ok s -> requestIds s + 1 < UINT256_MOD ->
  call e c s = Ok (r, s') -> storage_ok s'.
Proof.
  intros Hok Hhi H. pose proof Hok as [Hn Hs].
  destruct c; cbn [call] in H; inv_binds H.
  - destruct x as [i s1]. injection H as _ <-.
    unfold createRequest in Hx. inv_binds Hx. injection Hx as _ <-.
    rewrite RequestIds.Counters_increment_small by assumption.
    assert (requests s !! (requestIds s + 1) = None) as Hfree
        by (apply Hs; lia).
    unfold request_at. rewrite Hfree. cbn [default zero_request].
    split; [cbn; lia|]. intros j.
    cbn [push_userRequest set_request set_requestIds requestIds requests
         paidTxHash paidAmount paidTimestamp].
    destruct (Hs j) as [Hin Hout]. split.
    + intros Hj. destruct (decide (requestIds s + 1 = j)) as [<-|Hne].
      * eexists. rewrite lookup_insert_eq. split; [reflexivity|].
        apply Z.ltb_lt in Hx2. apply Z.leb_le in Hx4.
        unfold stored_ok. cbn.
        split; [reflexivity|]. split; [lia|]. split; [lia|].
        split; [|auto]. intros ->. discriminate Hx0.
      * rewrite lookup_insert_ne by exact Hne. apply Hin. lia.
    + intros Hj. rewrite lookup_insert_ne by lia. apply Hout. lia.
  - injection H as _ <-. unfold submitPaymentAttestation in Hx.
    inv_binds Hx. injection Hx as <-. in_use Hok.
    apply storage_ok_set_request; [exact Hok | exact Hi |].
    destruct (stored_request s _requestId Hok Hi) as (S1 & S2 & S3 & S4 & _).
    unfold stored_ok. cbn.
    split; [exact S1|]. split; [exact S2|]. split; [exact S3|].
    split; [exact S4|]. intros Hp. contradiction Hp. reflexivity.
  - injection H as _ <-. unfold cancelRequest in Hx.
    inv_binds Hx. injection Hx as <-. in_use Hok.
    apply storage_ok_set_request; [exact Hok | exact Hi |].
    destruct (stored_request s _requestId Hok Hi)
      as (S1 & S2 & S3 & S4 & S5).
    unfold stored_ok. cbn.
    split; [exact S1|]. split; [exact S2|]. split; [exact S3|].
    split; [exact S4|]. intros _. apply S5. rewrite Hpending. discriminate.
  - injection H as _ <-. unfold markExpired in Hx.
    inv_binds Hx. injection Hx as <-. in_use Hok.
    apply storage_ok_set_request; [exact Hok | exact Hi |].
    destruct (stored_request s _requestId Hok Hi)
      as (S1 & S2 & S3 & S4 & S5).
    unfold stored_ok. cbn.
    split; [exact S1|]. split; [exact S2|]. split; [exact S3|].
    split; [exact S4|]. intros _. apply S5. rewrite Hpending. discriminate.
  - injection H as _ <-. unfold addAuthorizedAttestor in Hx.
    inv_binds Hx. injection Hx as <-. exact Hok.
  - injection H as _ <-. unfold removeAuthorizedAttestor in Hx.
    inv_binds Hx. injection Hx as <-. exact Hok.
  - injection H as _ <-. unfold addSupportedAsset in Hx.
    inv_binds Hx. injection Hx as <-. exact Hok.
  - injection H as _ <-. unfold removeSupportedAsset in Hx.
    inv_binds Hx. injection Hx as <-. exact Hok.
  - injection H as _ <-. unfold updateFtsoRegistry in Hx.
    inv_binds Hx. injection Hx as <-. exact Hok.
  - injection H as _ <-. unfold transferOwnership in Hx.
    inv_binds Hx. injection Hx as <-. exact Hok.
  - injection H as _ <-. unfold renounceOwnership in Hx.
    inv_binds Hx. injection Hx as <-. exact Hok.
Qed.

Lemma checked_Ok x y : checked x = Ok y -> y = x /\ 0 <= x < UINT256_MOD.
Proof.
  unfold checked, in_uint256.
  destruct (0 <=? x) eqn:E1; destruct (x <? UINT256_MOD) eqn:E2;
    cbn [andb]; intros H; try discriminate H.
  injection H as <-. apply Z.leb_le in E1. apply Z.ltb_lt in E2. auto.
Qed.

Lemma nonempty_length (x : string) :
  (0 <? Z.of_nat (String.length x)) = true <-> x <> "".
Proof.
  destruct x as [|c x]; cbn.
  - split; [discriminate | intros H; contradiction H; reflexivity].
  - split; [discriminate | reflexivity].
Qed.

(** What a successful transaction has checked and what it has written. *)
Lemma call_effect e c s r s' :
  call e c s = Ok (r, s') ->
  match c with
  | CreateRequest rcp sym amount exp bp msg =>
      let n := Counters_increment (requestIds s) in
      let old := request_at s n in
      r = Some n /\
      rcp <> "" /\ default false (supportedAssets s !! sym) = true /\
      0 < amount /\ block_timestamp e < exp /\ bp <= 1000 /\
      s' = push_userRequest (msg_sender e) n
             (set_request n
                (mkRequest n (msg_sender e) rcp sym amount exp bp PENDING
                   (paidTxHash old) (paidAmount old) (paidTimestamp old) msg)
                (set_requestIds n s))
  | SubmitPaymentAttestation i h paid t =>
      let request := request_at s i in
      r = None /\
      default false (authorizedAttestors s !! msg_sender e) = true /\
      validRequest s i = Ok tt /\
      status request = PENDING /\
      block_timestamp e <= expiry request /\
      t <= block_timestamp e /\
      (exists requiredXRP,
          calculateXRPAmount e s (assetSymbol request) (assetAmount request)
          = Ok requiredXRP /\
          requiredXRP * (10000 - slippageBp request) / 10000 <= paid) /\
      s' = set_request i
             (mkRequest (id request) (creator request)
                (recipientXRPL request) (assetSymbol request)
                (assetAmount request) (expiry request) (slippageBp request)
                PAID h paid t (message request)) s
  | CancelRequest i =>
      let request := request_at s i in
      r = None /\ validRequest s i = Ok tt /\
      creator request = msg_sender e /\ status request = PENDING /\
      s' = set_request i (with_status CANCELLED request) s
  | MarkExpired i =>
      let request := request_at s i in
      r = None /\ validRequest s i = Ok tt /\
      status request = PENDING /\ expiry request < block_timestamp e /\
      s' = set_request i (with_status EXPIRED request) s
  | AddAuthorizedAttestor a =>
      r = None /\ owner s = msg_sender e /\
      s' = set_authorizedAttestor a true s
  | RemoveAuthorizedAttestor a =>
      r = None /\ owner s = msg_sender e /\
      s' = set_authorizedAttestor a false s
  | AddSupportedAsset sym =>
      r = None /\ owner s = msg_sender e /\
      s' = set_supportedAsset sym true s
  | RemoveSupportedAsset sym =>
      r = None /\ owner s = msg_sender e /\
      s' = set_supportedAsset sym false s
  | UpdateFtsoRegistry a =>
      r = None /\ owner s = msg_sender e /\ s' = set_ftsoRegistry a s
  | TransferOwnership a =>
      r = None /\ owner s = msg_sender e /\ a <> 0 /\ s' = set_owner a s
  | RenounceOwnership =>
      r = None /\ owner s = msg_sender e /\ s' = set_owner 0 s
  end.
Proof.
  intros H. destruct c; cbn [call] in H; inv_binds H.
  - destruct x as [i s1]. injection H as <- <-.
    unfold createRequest in Hx. inv_binds Hx. injection Hx as <- <-.
    cbv zeta.
    repeat match goal with
           | Hc : (_ <? _) = true |- _ =>
               first [apply nonempty_length in Hc | apply Z.ltb_lt in Hc]
           | Hc : (_ <=? _) = true |- _ => apply Z.leb_le in Hc
           end.
    auto 10.
  - injection H as <- <-. unfold submitPaymentAttestation in Hx.
    inv_binds Hx. injection Hx as <-. cbv zeta.
    repeat match goal with
           | Hc : (_ <=? _) = true |- _ => apply Z.leb_le in Hc
           | Hc : bool_decide _ = true |- _ =>
               apply bool_decide_eq_true_1 in Hc
           | Hc : onlyAuthorizedAttestor _ _ = Ok _ |- _ =>
               unfold onlyAuthorizedAttestor in Hc;
               apply require_inv_Ok in Hc
           | Hc : validRequest _ _ = Ok ?u |- _ =>
               lazymatch u with tt => fail | _ => destruct u end
           | Hc : checked_sub _ _ = Ok _ |- _ =>
               apply checked_Ok in Hc as [-> _]
           | Hc : checked_mul _ _ = Ok _ |- _ =>
               apply checked_Ok in Hc as [-> _]
           | Hc : checked_div _ 10000 = Ok _ |- _ =>
               unfold checked_div in Hc; cbn [Z.eqb] in Hc;
               injection Hc as <-
           end.
    repeat (split; [assumption || reflexivity|]).
    split; [|reflexivity]. eexists. split; [eassumption|assumption].
  - injection H as <- <-. unfold cancelRequest in Hx.
    inv_binds Hx. injection Hx as <-. cbv zeta.
    repeat match goal with
           | Hc : bool_decide _ = true |- _ =>
               apply bool_decide_eq_true_1 in Hc
           | Hc : validRequest _ _ = Ok ?u |- _ =>
               lazymatch u with tt => fail | _ => destruct u end
           end.
    auto.
  - injection H as <- <-. unfold markExpired in Hx.
    inv_binds Hx. injection Hx as <-. cbv zeta.
    repeat match goal with
           | Hc : (_ <? _) = true |- _ => apply Z.ltb_lt in Hc
           | Hc : bool_decide _ = true |- _ =>
               apply bool_decide_eq_true_1 in Hc
           | Hc : validRequest _ _ = Ok ?u |- _ =>
               lazymatch u with tt => fail | _ => destruct u end
           end.
    auto.
  - injection H as <- <-. unfold addAuthorizedAttestor, onlyOwner in Hx.
    inv_binds Hx. injection Hx as <-.
    apply bool_decide_eq_true_1 in Hx0. auto.
  - injection H as <- <-. unfold removeAuthorizedAttestor, onlyOwner in Hx.
    inv_binds Hx. injection Hx as <-.
    apply bool_decide_eq_true_1 in Hx0. auto.
  - injection H as <- <-. unfold addSupportedAsset, onlyOwner in Hx.
    inv_binds Hx. injection Hx as <-.
    apply bool_decide_eq_true_1 in Hx0. auto.
  - injection H as <- <-. unfold removeSupportedAsset, onlyOwner in Hx.
    inv_binds Hx. injection Hx as <-.
    apply bool_decide_eq_true_1 in Hx0. auto.
  - injection H as <- <-. unfold updateFtsoRegistry, onlyOwner in Hx.
    inv_binds Hx. injection Hx as <-.
    apply bool_decide_eq_true_1 in Hx0. auto.
  - injection H as <- <-. unfold transferOwnership, onlyOwner in Hx.
    inv_binds Hx. injection Hx as <-.
    repeat match goal with
           | Hc : bool_decide _ = true |- _ =>
               apply bool_decide_eq_true_1 in Hc
           | Hc : negb _ = true |- _ =>
               apply negb_true_iff, Z.eqb_neq in Hc
           end.
    auto.
  - injection H as <- <-. unfold renounceOwnership, onlyOwner in Hx.
    inv_binds Hx. injection Hx as <-.
    apply bool_decide_eq_true_1 in Hx0. auto.
Qed.

Lemma step_Ok e c s r s' : call e c s = Ok (r, s') -> step s (e, c) = s'.
Proof. intros H. unfold step. cbn [fst snd]. rewrite H. reflexivity. Qed.

Lemma step_Revert e c s reason :
  call e c s = Revert reason -> step s (e, c) = s.
Proof. intros H. unfold step. cbn [fst snd]. rewrite H. reflexivity. Qed.

(** Induction along a trace that is short enough for the counter not to
    wrap: a property kept by every successful transaction that satisfies
    [Q] holds at the end, as does [storage_ok]. *)
Lemma run_ind (Q : Env * Call -> Prop) (P : State -> Prop) :
  (forall s e c r s',
      Q (e, c) -> storage_ok s -> requestIds s + 1 < UINT256_MOD -> P s ->
      call e c s = Ok (r, s') -> P s') ->
  forall tr s,
    Forall Q tr -> storage_ok s -> P s ->
    requestIds s + Z.of_nat (length tr) < UINT256_MOD ->
    P (run tr s) /\ storage_ok (run tr s).
Proof.
  intros Hstep tr. induction tr as [|[e c] tr IH]; intros s HQ Hok HP Hlen;
    [split; assumption|].
  apply Forall_cons in HQ as [Hq HQ]. cbn [length] in Hlen.
  cbn [run fold_left]. fold (run tr (step s (e, c))).
  destruct (call e c s) as [[r s']|reason] eqn:E.
  - rewrite (step_Ok _ _ _ _ _ E).
    pose proof Hok as [Hn Hs].
    destruct (RequestIds.call_counter e c s r s' E) as [_ Hr];
      [apply Hs; lia | lia | lia |].
    apply IH; [exact HQ | | |].
    + eapply storage_ok_call; [exact Hok | lia | exact E].
    + eapply Hstep; [exact Hq | exact Hok | lia | exact HP | exact E].
    + destruct r; [destruct Hr as [-> ->]|rewrite Hr]; lia.
  - rewrite (step_Revert _ _ _ _ E). apply IH; [assumption..|lia].
Qed.

(** X1. Along every trace of fewer than [2^256 - 1] transactions from the
    constructor, the identifiers in use are exactly 1, ..., total; each
    holds a request with its own identifier, a positive amount, a slippage
    of at most 1000 basis points and a non-empty recipient; a request that
    is not PAID carries no payment proof; nothing is stored under any other
    identifier. *)
Theorem storage_ok_reachable e0 registry tr :
  Z.of_nat (length tr) < UINT256_MOD - 1 ->
  storage_ok (run tr (constructor e0 registry)).
Proof.
  intros Hlen.
  apply (run_ind (fun _ => True) (fun _ => True)); auto.
  - apply Forall_forall. auto.
  - apply storage_ok_constructor.
  - cbn. lia.
Qed.

Lemma storage_ok_reachable_witness :
  storage_ok
    (run [(Scenario.env Scenario.OWNER 1,
           AddAuthorizedAttestor Scenario.WALLET);
          (Scenario.env Scenario.ALICE 2, Scenario.ask "dinner");
          (Scenario.env Scenario.ALICE 3, Scenario.ask "taxi");
          (Scenario.env Scenario.WALLET 4,
           SubmitPaymentAttestation 1 "F00D" 1000000000 4);
          (Scenario.env Scenario.ALICE 5, Scenario.ask "coffee");
          (Scenario.env Scenario.WALLET 6,
           SubmitPaymentAttestation 2 "BEEF" 1000000000 6)]
         (constructor (Scenario.env Scenario.OWNER 0) Scenario.REGISTRY)).
Proof.
  apply (storage_ok_reachable (Scenario.env Scenario.OWNER 0)
           Scenario.REGISTRY
           [(Scenario.env Scenario.OWNER 1,
             AddAuthorizedAttestor Scenario.WALLET);
            (Scenario.env Scenario.ALICE 2, Scenario.ask "dinner");
            (Scenario.env Scenario.ALICE 3, Scenario.ask "taxi");
            (Scenario.env Scenario.WALLET 4,
             SubmitPaymentAttestation 1 "F00D" 1000000000 4);
            (Scenario.env Scenario.ALICE 5, Scenario.ask "coffee");
            (Scenario.env Scenario.WALLET 6,
             SubmitPaymentAttestation 2 "BEEF" 1000000000 6)]).
  reflexivity.
Defined.

End Storage.

(** ** The functions of the contract, one call at a time *)

Module ContractFacts.
Import RequestManager Invariants Storage.

Lemma getRequest_set_request_other s i r j :
  i <> j -> getRequest (set_request i r s) j = getRequest s j.
Proof.
  intros Hne. unfold getRequest, validRequest.
  rewrite StatusMachine.request_at_set_request.
  rewrite bool_decide_eq_false_2 by exact Hne. reflexivity.
Qed.

Lemma getRequest_set_request_same s i r :
  i <= requestIds s -> creator r <> 0 ->
  getRequest (set_request i r s) i = Ok r.
Proof.
  intros Hi Hc. unfold getRequest, validRequest.
  rewrite StatusMachine.request_at_set_request.
  rewrite bool_decide_eq_true_2 by reflexivity.
  cbn [set_request requestIds].
  rewrite (proj2 (Z.leb_le _ _) Hi), (proj2 (Z.eqb_neq _ _) Hc).
  reflexivity.
Qed.

(** X2. A request that [createRequest] has accepted can be read back:
    it got the next identifier, which is the new total;
    [getRequest] returns the arguments as given, the sender as creator,
    status PENDING and no payment proof; the identifier is appended to the
    sender's list; every other request and every other list reads as
    before. *)
Theorem createRequest_getRequest e s rcp sym amount exp bp msg i s' :
  createRequest e s rcp sym amount exp bp msg = Ok (i, s') ->
  msg_sender e <> 0 ->
  0 <= requestIds s ->
  requestIds s + 1 < UINT256_MOD ->
  requests s !! (requestIds s + 1) = None ->
  i = getTotalRequests s + 1 /\
  getTotalRequests s' = i /\
  getRequest s' i
  = Ok (mkRequest i (msg_sender e) rcp sym amount exp bp PENDING "" 0 0
                  msg) /\
  getUserRequests s' (msg_sender e)
  = getUserRequests s (msg_sender e) ++ [i] /\
  (forall j, j <> i -> getRequest s' j = getRequest s j) /\
  (forall u, u <> msg_sender e ->
             getUserRequests s' u = getUserRequests s u).
Proof.
  intros H Hsender Hlo Hhi Hfree.
  assert (call e (CreateRequest rcp sym amount exp bp msg) s
          = Ok (Some i, s')) as Hc by (cbn [call]; rewrite H; reflexivity).
  apply call_effect in Hc. cbv zeta in Hc.
  rewrite RequestIds.Counters_increment_small in Hc by assumption.
  assert (request_at s (requestIds s + 1) = zero_request) as Hold
      by (unfold request_at; rewrite Hfree; reflexivity).
  rewrite Hold in Hc. cbn [zero_request paidTxHash paidAmount paidTimestamp]
    in Hc.
  destruct Hc as (Hi & _ & _ & _ & _ & _ & ->). injection Hi as ->.
  unfold getTotalRequests, getUserRequests.
  split; [reflexivity|]. split; [reflexivity|]. split; [|split; [|split]].
  - unfold getRequest, validRequest, request_at.
    cbn [push_userRequest set_request set_requestIds requestIds requests].
    rewrite lookup_insert_eq. cbn.
    rewrite Z.leb_refl, (proj2 (Z.eqb_neq _ _) Hsender). reflexivity.
  - cbn [push_userRequest userRequests set_request set_requestIds].
    rewrite lookup_insert_eq. reflexivity.
  - intros j Hj. unfold getRequest, validRequest, request_at.
    cbn [push_userRequest set_request set_requestIds requestIds requests].
    rewrite lookup_insert_ne by congruence.
    destruct (Z.leb_spec j (requestIds s + 1)),
             (Z.leb_spec j (requestIds s)); try reflexivity; lia.
  - intros u Hu.
    cbn [push_userRequest userRequests set_request set_requestIds].
    rewrite lookup_insert_ne by congruence. reflexivity.
Qed.

Lemma createRequest_getRequest_witness :
  exists s',
    createRequest (Scenario.env Scenario.ALICE 3) Scenario.one_pending
                  "rXYZ" "XRP" 1000000000 10000 100 "taxi"
    = Ok (2, s') /\
    getRequest s' 2
    = Ok (mkRequest 2 Scenario.ALICE "rXYZ" "XRP" 1000000000 10000 100
                    PENDING "" 0 0 "taxi") /\
    getUserRequests s' Scenario.ALICE
    = getUserRequests Scenario.one_pending Scenario.ALICE ++ [2].
Proof.
  destruct (createRequest (Scenario.env Scenario.ALICE 3)
              Scenario.one_pending "rXYZ" "XRP" 1000000000 10000 100 "taxi")
    as [[i s']|reason] eqn:E; [|vm_compute in E; discriminate E].
  assert (i = 2) as -> by (vm_compute in E; congruence).
  exists s'. split; [reflexivity|].
  destruct (createRequest_getRequest _ _ _ _ _ _ _ _ _ _ E)
    as (_ & _ & H3 & H4 & _);
    [vm_compute; discriminate | vm_compute; discriminate | reflexivity
    | vm_compute; reflexivity |].
  split; [exact H3 | exact H4].
Defined.

Lemma supported_iff (m : gmap string bool) sym :
  default false (m !! sym) = true <-> m !! sym = Some true.
Proof. destruct (m !! sym) as [[]|]; cbn; split; congruence. Qed.

(** X3. [createRequest] succeeds exactly when the recipient is not empty,
    the asset is supported, the amount is positive, the expiry lies after
    the block's timestamp and the slippage is at most 1000 basis points;
    when it fails, it is with the message of the first of these checks that
    fails, and never otherwise. *)
Theorem createRequest_accepts e s rcp sym amount exp bp msg :
  (is_ok (createRequest e s rcp sym amount exp bp msg) = true <->
   rcp <> "" /\ supportedAssets s !! sym = Some true /\ 0 < amount /\
   block_timestamp e < exp /\ bp <= 1000) /\
  (forall reason,
      createRequest e s rcp sym amount exp bp msg = Revert reason ->
      (reason = "Invalid recipient XRPL address" /\ rcp = "") \/
      (reason = "Asset not supported" /\ rcp <> "" /\
       supportedAssets s !! sym <> Some true) \/
      (reason = "Amount must be greater than 0" /\ amount <= 0) \/
      (reason = "Expiry must be in the future" /\
       exp <= block_timestamp e) \/
      (reason = "Slippage cannot exceed 10%" /\ 1000 < bp)).
Proof.
  unfold createRequest.
  destruct (0 <? Z.of_nat (String.length rcp)) eqn:E1.
  2:{ assert (rcp = "") as ->
        by (destruct rcp; [reflexivity | discriminate E1]).
      cbn. split; [split; [discriminate | intros [H _]; congruence]|].
      intros reason [= <-]. auto. }
  apply nonempty_length in E1.
  destruct (default false (supportedAssets s !! sym)) eqn:E2.
  2:{ cbn. split.
      - split; [discriminate|]. intros (_ & H & _).
        apply supported_iff in H. congruence.
      - intros reason [= <-]. right. left. repeat split; [exact E1|].
        intros H. apply supported_iff in H. congruence. }
  apply supported_iff in E2.
  destruct (Z.ltb_spec 0 amount).
  2:{ cbn. split; [split; [discriminate | lia]|].
      intros reason [= <-]. auto 6. }
  destruct (Z.ltb_spec (block_timestamp e) exp).
  2:{ cbn. split; [split; [discriminate | lia]|].
      intros reason [= <-]. auto 8. }
  destruct (Z.leb_spec bp 1000).
  2:{ cbn. split; [split; [discriminate | lia]|].
      intros reason [= <-]. auto 10. }
  cbn. split; [split; auto | discriminate].
Qed.

Lemma validRequest_inv s i :
  validRequest s i = Ok tt ->
  i <= requestIds s /\ creator (request_at s i) <> 0.
Proof.
  intros H. unfold validRequest in H. inv_binds H.
  apply Z.leb_le in Hx. apply negb_true_iff, Z.eqb_neq in H. auto.
Qed.

(** X4. An attestation the contract accepts came from an authorized
    attestor, for a request that was PENDING and not past its expiry, with
    a timestamp not in the future, and paid at least the converted amount
    reduced by the slippage tolerance (for a request in XRP: at least
    [assetAmount * (10000 - slippageBp) / 10000]). Afterwards [getRequest]
    returns the request as PAID with the hash, the amount and the
    timestamp of the attestation and every other field as before; the
    other requests and the total are untouched. *)
Theorem attestation_accepted e s i h paid t s' :
  submitPaymentAttestation e s i h paid t = Ok s' ->
  let request := request_at s i in
  default false (authorizedAttestors s !! msg_sender e) = true /\
  getRequest s i = Ok request /\
  status request = PENDING /\
  block_timestamp e <= expiry request /\
  t <= block_timestamp e /\
  (exists requiredXRP,
      calculateXRPAmount e s (assetSymbol request) (assetAmount request)
      = Ok requiredXRP /\
      requiredXRP * (10000 - slippageBp request) / 10000 <= paid) /\
  (assetSymbol request = "XRP" ->
   assetAmount request * (10000 - slippageBp request) / 10000 <= paid) /\
  getRequest s' i
  = Ok (mkRequest (id request) (creator request) (recipientXRPL request)
          (assetSymbol request) (assetAmount request) (expiry request)
          (slippageBp request) PAID h paid t (message request)) /\
  (forall j, j <> i -> getRequest s' j = getRequest s j) /\
  getTotalRequests s' = getTotalRequests s.
Proof.
  intros H request.
  assert (call e (SubmitPaymentAttestation i h paid t) s = Ok (None, s'))
    as Hc by (cbn [call]; rewrite H; reflexivity).
  apply call_effect in Hc. cbv zeta in Hc. fold request in Hc.
  destruct Hc as (_ & Hauth & Hv & Hp & Hexp & Ht & (req & Hreq & Hmin) & ->).
  destruct (validRequest_inv s i Hv) as [Hi Hcr]. fold request in Hcr.
  split; [exact Hauth|]. split.
  { unfold getRequest. rewrite Hv. reflexivity. }
  split; [exact Hp|]. split; [exact Hexp|]. split; [exact Ht|].
  split; [exists req; auto|]. split.
  { intros Hsym. rewrite Hsym in Hreq. cbn in Hreq. injection Hreq as <-.
    exact Hmin. }
  split; [apply getRequest_set_request_same; assumption|].
  split; [|reflexivity].
  intros j Hj. apply getRequest_set_request_other. congruence.
Qed.

Lemma attestation_accepted_witness :
  exists s',
    submitPaymentAttestation (Scenario.env Scenario.WALLET 4)
      Scenario.two_pending 1 "F00D" 990000000 4 = Ok s' /\
    status (request_at Scenario.two_pending 1) = PENDING /\
    getRequest s' 1
    = Ok (mkRequest 1 Scenario.ALICE "rXYZ" "XRP" 1000000000 10000 100
                    PAID "F00D" 990000000 4 "dinner").
Proof.
  destruct (submitPaymentAttestation (Scenario.env Scenario.WALLET 4)
              Scenario.two_pending 1 "F00D" 990000000 4)
    as [s'|reason] eqn:E; [|vm_compute in E; discriminate E].
  exists s'. split; [reflexivity|].
  destruct (attestation_accepted _ _ _ _ _ _ _ E)
    as (_ & _ & H3 & _ & _ & _ & _ & H8 & _).
  split; [exact H3|]. rewrite H8. vm_compute. reflexivity.
Defined.

(** X5. Only the creator cancels: a cancellation that succeeds was sent by
    the creator of a PENDING request and leaves it CANCELLED with every
    other field as before; sent by anyone else for an existing request it
    reverts with "Only creator can cancel", whatever the status. *)
Theorem cancelRequest_only_creator e s i :
  (forall s',
      cancelRequest e s i = Ok s' ->
      msg_sender e = creator (request_at s i) /\
      status (request_at s i) = PENDING /\
      getRequest s' i = Ok (with_status CANCELLED (request_at s i)) /\
      (forall j, j <> i -> getRequest s' j = getRequest s j)) /\
  (validRequest s i = Ok tt ->
   msg_sender e <> creator (request_at s i) ->
   cancelRequest e s i = Revert "Only creator can cancel").
Proof.
  split.
  - intros s' H.
    assert (call e (CancelRequest i) s = Ok (None, s')) as Hc
        by (cbn [call]; rewrite H; reflexivity).
    apply call_effect in Hc. cbv zeta in Hc.
    destruct Hc as (_ & Hv & Hcr & Hp & ->).
    destruct (validRequest_inv s i Hv) as [Hi Hne].
    split; [congruence|]. split; [exact Hp|]. split.
    + apply getRequest_set_request_same; assumption.
    + intros j Hj. apply getRequest_set_request_other. congruence.
  - intros Hv Hne. unfold cancelRequest. rewrite Hv.
    cbn [mbind result_bind].
    rewrite (bool_decide_eq_false_2
               (creator (request_at s i) = msg_sender e))
      by (intros Heq; apply Hne; symmetry; exact Heq).
    reflexivity.
Qed.

Lemma cancelRequest_only_creator_witness :
  cancelRequest (Scenario.env Scenario.OWNER 5) Scenario.two_pending 2
  = Revert "Only creator can cancel" /\
  exists s',
    cancelRequest (Scenario.env Scenario.ALICE 5) Scenario.two_pending 2
    = Ok s' /\
    getRequest s' 2
    = Ok (with_status CANCELLED (request_at Scenario.two_pending 2)).
Proof.
  split.
  - apply (proj2 (cancelRequest_only_creator
                    (Scenario.env Scenario.OWNER 5) Scenario.two_pending 2));
      [vm_compute; reflexivity | vm_compute; discriminate].
  - destruct (cancelRequest (Scenario.env Scenario.ALICE 5)
                Scenario.two_pending 2) as [s'|reason] eqn:E;
      [|vm_compute in E; discriminate E].
    exists s'. split; [reflexivity|].
    apply (proj1 (cancelRequest_only_creator
                    (Scenario.env Scenario.ALICE 5) Scenario.two_pending 2)
                 s' E).
Defined.

(** X6. Expiry separates paying from expiring. [markExpired] succeeds
    exactly for an existing PENDING request whose expiry lies strictly
    before the block's timestamp; an attestation is accepted only at or
    before the expiry; so at one timestamp no request can be both attested
    and marked expired, whoever sends the two transactions. *)
Theorem expiry_separates e1 e2 s i h paid t :
  (is_ok (markExpired e2 s i) = true <->
   validRequest s i = Ok tt /\ status (request_at s i) = PENDING /\
   expiry (request_at s i) < block_timestamp e2) /\
  (is_ok (submitPaymentAttestation e1 s i h paid t) = true ->
   block_timestamp e1 <= expiry (request_at s i)) /\
  (block_timestamp e1 = block_timestamp e2 ->
   is_ok (submitPaymentAttestation e1 s i h paid t) = true ->
   is_ok (markExpired e2 s i) = false).
Proof.
  assert (is_ok (markExpired e2 s i) = true <->
          validRequest s i = Ok tt /\ status (request_at s i) = PENDING /\
          expiry (request_at s i) < block_timestamp e2) as Hmark.
  { split.
    - destruct (markExpired e2 s i) as [s'|] eqn:E; [|discriminate].
      intros _.
      assert (call e2 (MarkExpired i) s = Ok (None, s')) as Hc
          by (cbn [call]; rewrite E; reflexivity).
      apply call_effect in Hc. cbv zeta in Hc. tauto.
    - intros (Hv & Hp & Hexp). unfold markExpired. rewrite Hv.
      cbn [mbind result_bind].
      rewrite bool_decide_eq_true_2 by exact Hp.
      rewrite (proj2 (Z.ltb_lt _ _) Hexp). reflexivity. }
  assert (is_ok (submitPaymentAttestation e1 s i h paid t) = true ->
          block_timestamp e1 <= expiry (request_at s i)) as Hsub.
  { destruct (submitPaymentAttestation e1 s i h paid t) as [s'|] eqn:E;
      [|discriminate].
    intros _.
    assert (call e1 (SubmitPaymentAttestation i h paid t) s = Ok (None, s'))
      as Hc by (cbn [call]; rewrite E; reflexivity).
    apply call_effect in Hc. cbv zeta in Hc. tauto. }
  split; [exact Hmark|]. split; [exact Hsub|].
  intros Heq Hok. apply Hsub in Hok.
  apply not_true_is_false. intros E. apply Hmark in E. lia.
Qed.

Lemma expiry_separates_witness :
  is_ok (markExpired (Scenario.env Scenario.OWNER 10)
                     Scenario.two_pending 1) = false /\
  is_ok (markExpired (Scenario.env Scenario.OWNER 10001)
                     Scenario.two_pending 1) = true.
Proof.
  split.
  - apply (proj2 (proj2 (expiry_separates
                           (Scenario.env Scenario.WALLET 10)
                           (Scenario.env Scenario.OWNER 10)
                           Scenario.two_pending 1 "F00D" 1000000000 9)));
      [reflexivity | vm_compute; reflexivity].
  - apply (proj1 (expiry_separates
                    (Scenario.env Scenario.WALLET 10)
                    (Scenario.env Scenario.OWNER 10001)
                    Scenario.two_pending 1 "F00D" 1000000000 9)).
    split; [vm_compute; reflexivity|].
    split; [vm_compute; reflexivity | vm_compute; reflexivity].
Defined.

(** X7. The owner's switches take effect at once and touch nothing
    else. After [removeAuthorizedAttestor(a)] every attestation sent by
    [a] reverts with "Not authorized attestor"; after
    [removeSupportedAsset(sym)] every [createRequest] in [sym] with a
    recipient reverts with "Asset not supported", while an attestation is
    decided exactly as before the removal, so requests already created in
    the asset can still be paid. *)
Theorem switches_take_effect e s :
  (forall a s' e' i h paid t,
      removeAuthorizedAttestor e s a = Ok s' ->
      msg_sender e' = a ->
      submitPaymentAttestation e' s' i h paid t
      = Revert "Not authorized attestor") /\
  (forall sym s' e' rcp amount exp bp msg,
      removeSupportedAsset e s sym = Ok s' ->
      rcp <> "" ->
      createRequest e' s' rcp sym amount exp bp msg
      = Revert "Asset not supported") /\
  (forall sym b e' i h paid t,
      submitPaymentAttestation e' (set_supportedAsset sym b s) i h paid t
      = (s1 ← submitPaymentAttestation e' s i h paid t ;
         Ok (set_supportedAsset sym b s1))).
Proof.
  split; [|split].
  - intros a s' e' i h paid t H <-.
    unfold removeAuthorizedAttestor in H. inv_binds H. injection H as <-.
    unfold submitPaymentAttestation, onlyAuthorizedAttestor.
    cbn [set_authorizedAttestor authorizedAttestors].
    rewrite lookup_insert_eq. reflexivity.
  - intros sym s' e' rcp amount exp bp msg H Hrcp.
    unfold removeSupportedAsset in H. inv_binds H. injection H as <-.
    unfold createRequest. apply nonempty_length in Hrcp. rewrite Hrcp.
    cbn [set_supportedAsset supportedAssets require mbind result_bind].
    rewrite lookup_insert_eq. reflexivity.
  - intros sym b e' i h paid t.
    unfold submitPaymentAttestation.
    change (onlyAuthorizedAttestor e' (set_supportedAsset sym b s))
      with (onlyAuthorizedAttestor e' s).
    change (validRequest (set_supportedAsset sym b s) i)
      with (validRequest s i).
    change (request_at (set_supportedAsset sym b s) i)
      with (request_at s i).
    change (calculateXRPAmount e' (set_supportedAsset sym b s))
      with (calculateXRPAmount e' s).
    cbv zeta.
    repeat match goal with
           | |- mbind _ ?m = _ =>
               destruct m; cbn [mbind result_bind]; [|reflexivity]
           end.
    reflexivity.
Qed.

Lemma switches_take_effect_witness :
  (forall s',
      removeAuthorizedAttestor (Scenario.env Scenario.OWNER 5)
                               Scenario.two_pending Scenario.WALLET
      = Ok s' ->
      submitPaymentAttestation (Scenario.env Scenario.WALLET 6) s' 1
                               "F00D" 1000000000 6
      = Revert "Not authorized attestor") /\
  (forall s',
      removeSupportedAsset (Scenario.env Scenario.OWNER 5)
                           Scenario.two_pending "XRP" = Ok s' ->
      createRequest (Scenario.env Scenario.ALICE 6) s' "rXYZ" "XRP" 5 10000
                    100 "late"
      = Revert "Asset not supported").
Proof.
  split.
  - intros s' H.
    apply (proj1 (switches_take_effect (Scenario.env Scenario.OWNER 5)
                    Scenario.two_pending)
                 Scenario.WALLET s' _ 1 "F00D" 1000000000 6 H).
    reflexivity.
  - intros s' H.
    apply (proj1 (proj2 (switches_take_effect
                           (Scenario.env Scenario.OWNER 5)
                           Scenario.two_pending))
                 "XRP" s' _ "rXYZ" 5 10000 100 "late" H).
    discriminate.
Defined.

End ContractFacts.

(** ** What holds of every state the contract can reach *)

Module Reachable.
Import RequestManager Invariants Storage.

(** *** The lists of identifiers by creator *)

Lemma created_by_ext s s' u :
  requestIds s' = requestIds s ->
  (forall j, creator (request_at s' j) = creator (request_at s j)) ->
  created_by s' u = created_by s u.
Proof.
  intros Hn Hc. unfold created_by. rewrite Hn.
  apply List.filter_ext. intros j. rewrite Hc. reflexivity.
Qed.

Lemma request_at_created a n r s j :
  request_at (push_userRequest a n (set_request n r (set_requestIds n s))) j
  = if bool_decide (n = j) then r else request_at s j.
Proof.
  unfold request_at.
  cbn [push_userRequest set_request set_requestIds requests].
  case_bool_decide as Hj.
  - subst j. rewrite lookup_insert_eq. reflexivity.
  - rewrite lookup_insert_ne by exact Hj. reflexivity.
Qed.

Lemma userRequests_call e c s r s' :
  storage_ok s -> requestIds s + 1 < UINT256_MOD ->
  (forall u, getUserRequests s u = created_by s u) ->
  call e c s = Ok (r, s') ->
  forall u, getUserRequests s' u = created_by s' u.
Proof.
  intros Hok Hhi IH H u. pose proof Hok as [Hn Hs].
  apply call_effect in H. destruct c; cbv zeta in H.
  - rewrite RequestIds.Counters_increment_small in H by assumption.
    destruct H as (_ & _ & _ & _ & _ & _ & Hs').
    match type of Hs' with
    | _ = push_userRequest _ _ (set_request _ ?new _) =>
        set (request := new) in Hs';
        assert (creator request = msg_sender e) as Hcreator by reflexivity;
        clearbody request
    end.
    assert (requestIds s' = requestIds s + 1) as Hn'
        by (rewrite Hs'; reflexivity).
    assert (userRequests s'
            = <[msg_sender e := getUserRequests s (msg_sender e)
                                ++ [requestIds s + 1]]> (userRequests s))
      as Hu by (rewrite Hs'; reflexivity).
    assert (forall j, request_at s' j
                      = if bool_decide (requestIds s + 1 = j)
                        then request else request_at s j) as Hr
        by (intros j; rewrite Hs'; apply request_at_created).
    clear Hs'. unfold created_by. rewrite Hn'.
    rewrite seqZ_app by lia. rewrite List.filter_app.
    replace (seqZ (1 + requestIds s) 1) with [requestIds s + 1]
      by (rewrite seqZ_cons, seqZ_nil by lia; f_equal; lia).
    cbn [List.filter]. rewrite Hr.
    rewrite bool_decide_eq_true_2 by reflexivity. rewrite Hcreator.
    rewrite (List.filter_ext_in _
               (fun i => creator (request_at s i) =? u)).
    2:{ intros j Hj. apply list_elem_of_In, elem_of_seqZ in Hj.
        rewrite Hr. rewrite bool_decide_eq_false_2 by lia. reflexivity. }
    fold (created_by s u). rewrite <- IH.
    unfold getUserRequests at 1. rewrite Hu.
    destruct (Z.eqb_spec (msg_sender e) u) as [<-|Hne].
    + rewrite lookup_insert_eq. reflexivity.
    + rewrite lookup_insert_ne by exact Hne. rewrite app_nil_r.
      reflexivity.
  - destruct H as (_ & _ & _ & _ & _ & _ & _ & ->).
    rewrite (created_by_ext s); [apply IH | reflexivity |].
    intros j. rewrite StatusMachine.request_at_set_request.
    case_bool_decide; [subst|]; reflexivity.
  - destruct H as (_ & _ & _ & _ & ->).
    rewrite (created_by_ext s); [apply IH | reflexivity |].
    intros j. rewrite StatusMachine.request_at_set_request.
    case_bool_decide; [subst|]; reflexivity.
  - destruct H as (_ & _ & _ & _ & ->).
    rewrite (created_by_ext s); [apply IH | reflexivity |].
    intros j. rewrite StatusMachine.request_at_set_request.
    case_bool_decide; [subst|]; reflexivity.
  - destruct H as (_ & _ & ->). apply IH.
  - destruct H as (_ & _ & ->). apply IH.
  - destruct H as (_ & _ & ->). apply IH.
  - destruct H as (_ & _ & ->). apply IH.
  - destruct H as (_ & _ & ->). apply IH.
  - destruct H as (_ & _ & _ & ->). apply IH.
  - destruct H as (_ & _ & ->). apply IH.
Qed.

(** X8. Along every trace of fewer than [2^256 - 1] transactions from the
    constructor, [getUserRequests(u)] is the list of the identifiers of the
    requests whose creator is [u], each once, oldest first. *)
Theorem getUserRequests_created_by e0 registry tr u :
  Z.of_nat (length tr) < UINT256_MOD - 1 ->
  getUserRequests (run tr (constructor e0 registry)) u
  = created_by (run tr (constructor e0 registry)) u.
Proof.
  intros Hlen.
  destruct (run_ind (fun _ => True)
              (fun s => forall u, getUserRequests s u = created_by s u))
    with (tr := tr) (s := constructor e0 registry) as [H _].
  - intros s e c r s' _. apply userRequests_call.
  - apply Forall_forall. auto.
  - apply storage_ok_constructor.
  - intros v. reflexivity.
  - cbn. lia.
  - apply H.
Qed.

Lemma getUserRequests_created_by_witness :
  let tr := [(Scenario.env Scenario.OWNER 1,
              AddAuthorizedAttestor Scenario.WALLET);
             (Scenario.env Scenario.ALICE 2, Scenario.ask "dinner");
             (Scenario.env Scenario.OWNER 3, Scenario.ask "lunch");
             (Scenario.env Scenario.ALICE 4, Scenario.ask "taxi")] in
  let s := run tr (constructor (Scenario.env Scenario.OWNER 0)
                               Scenario.REGISTRY) in
  getUserRequests s Scenario.ALICE = created_by s Scenario.ALICE /\
  created_by s Scenario.ALICE = [1; 3].
Proof.
  intros tr s. split.
  - apply getUserRequests_created_by. reflexivity.
  - vm_compute. reflexivity.
Defined.

(** *** Nothing is paid without an attestor *)

Lemma no_attestor_call e c s r s' :
  is_addAuthorizedAttestor c = false ->
  (forall a, default false (authorizedAttestors s !! a) = false) ->
  (forall i, status (request_at s i) <> PAID) ->
  call e c s = Ok (r, s') ->
  (forall a, default false (authorizedAttestors s' !! a) = false) /\
  (forall i, status (request_at s' i) <> PAID).
Proof.
  intros Hc Hauth Hpaid H. apply call_effect in H.
  destruct c; try discriminate Hc; cbv zeta in H.
  - destruct H as (_ & _ & _ & _ & _ & _ & ->). split; [exact Hauth|].
    intros i. unfold request_at.
    cbn [push_userRequest set_request set_requestIds requests].
    destruct (decide (Counters_increment (requestIds s) = i)) as [<-|Hne].
    + rewrite lookup_insert_eq. discriminate.
    + rewrite lookup_insert_ne by exact Hne. apply Hpaid.
  - destruct H as (_ & Ha & _). rewrite Hauth in Ha. discriminate Ha.
  - destruct H as (_ & _ & _ & _ & ->). split; [exact Hauth|].
    intros j. rewrite StatusMachine.request_at_set_request.
    case_bool_decide; [discriminate | apply Hpaid].
  - destruct H as (_ & _ & _ & _ & ->). split; [exact Hauth|].
    intros j. rewrite StatusMachine.request_at_set_request.
    case_bool_decide; [discriminate | apply Hpaid].
  - destruct H as (_ & _ & ->). split; [|exact Hpaid].
    intros a. cbn [set_authorizedAttestor authorizedAttestors].
    destruct (decide (_attestor = a)) as [<-|Hne].
    + rewrite lookup_insert_eq. reflexivity.
    + rewrite lookup_insert_ne by exact Hne. apply Hauth.
  - destruct H as (_ & _ & ->). auto.
  - destruct H as (_ & _ & ->). auto.
  - destruct H as (_ & _ & ->). auto.
  - destruct H as (_ & _ & _ & ->). auto.
  - destruct H as (_ & _ & ->). auto.
Qed.

(** X9. No request is ever PAID on a contract whose owner has not added
    an attestor: after any trace from the constructor that holds no
    successful or failed [addAuthorizedAttestor], of any length, every
    request has a status other than PAID. *)
Theorem never_paid_without_attestor e0 registry tr i :
  Forall (fun ec => is_addAuthorizedAttestor (snd ec) = false) tr ->
  status (request_at (run tr (constructor e0 registry)) i) <> PAID.
Proof.
  intros Htr.
  assert (forall s,
             (forall a, default false (authorizedAttestors s !! a) = false) ->
             (forall i, status (request_at s i) <> PAID) ->
             forall i, status (request_at (run tr s) i) <> PAID) as Hrun.
  { clear i. induction tr as [|[e c] tr IH]; intros s Hauth Hpaid;
      [exact Hpaid|].
    apply Forall_cons in Htr as [Hc Htr]. cbn [snd] in Hc.
    cbn [run fold_left]. fold (run tr (step s (e, c))).
    destruct (call e c s) as [[r s']|reason] eqn:E.
    - rewrite (step_Ok _ _ _ _ _ E).
      destruct (no_attestor_call e c s r s' Hc Hauth Hpaid E).
      apply IH; assumption.
    - rewrite (step_Revert _ _ _ _ E). apply IH; assumption. }
  apply Hrun.
  - intros a. cbn. rewrite lookup_empty. reflexivity.
  - intros j. unfold request_at. cbn. rewrite lookup_empty. discriminate.
Qed.

Lemma never_paid_without_attestor_witness :
  status (request_at
            (run [(Scenario.env Scenario.ALICE 2, Scenario.ask "dinner");
                  (Scenario.env Scenario.OWNER 3,
                   SubmitPaymentAttestation 1 "F00D" 1000000000 3);
                  (Scenario.env Scenario.WALLET 4,
                   SubmitPaymentAttestation 1 "F00D" 1000000000 4)]
                 (constructor (Scenario.env Scenario.OWNER 0)
                              Scenario.REGISTRY)) 1) <> PAID.
Proof.
  apply never_paid_without_attestor. repeat constructor.
Defined.

(** *** Which identifiers can be read *)

Lemma creators_call e c s r s' :
  msg_sender e <> 0 ->
  (forall i q, requests s !! i = Some q -> creator q <> 0) ->
  call e c s = Ok (r, s') ->
  forall i q, requests s' !! i = Some q -> creator q <> 0.
Proof.
  intros Hsender IH H. apply call_effect in H.
  assert (forall j q0 i q,
             (creator q0 <> 0) ->
             requests (set_request j q0 s) !! i = Some q ->
             creator q <> 0) as Hset.
  { intros j q0 i q Hq0. cbn [set_request requests].
    destruct (decide (j = i)) as [<-|Hne].
    - rewrite lookup_insert_eq. intros [= <-]. exact Hq0.
    - rewrite lookup_insert_ne by exact Hne. apply IH. }
  destruct c; cbv zeta in H.
  - destruct H as (_ & _ & _ & _ & _ & _ & ->). intros i q.
    cbn [push_userRequest set_request set_requestIds requests].
    destruct (decide (Counters_increment (requestIds s) = i)) as [<-|Hne].
    + rewrite lookup_insert_eq. intros [= <-]. exact Hsender.
    + rewrite lookup_insert_ne by exact Hne. apply IH.
  - destruct H as (_ & _ & Hv & _ & _ & _ & _ & ->).
    apply ContractFacts.validRequest_inv in Hv as [_ Hv].
    intros i q. apply Hset. exact Hv.
  - destruct H as (_ & Hv & _ & _ & ->).
    apply ContractFacts.validRequest_inv in Hv as [_ Hv].
    intros i q. apply Hset. exact Hv.
  - destruct H as (_ & Hv & _ & _ & ->).
    apply ContractFacts.validRequest_inv in Hv as [_ Hv].
    intros i q. apply Hset. exact Hv.
  - destruct H as (_ & _ & ->). exact IH.
  - destruct H as (_ & _ & ->). exact IH.
  - destruct H as (_ & _ & ->). exact IH.
  - destruct H as (_ & _ & ->). exact IH.
  - destruct H as (_ & _ & ->). exact IH.
  - destruct H as (_ & _ & _ & ->). exact IH.
  - destruct H as (_ & _ & ->). exact IH.
Qed.

(** Along a short trace with no sender at the zero address every stored
    request has a creator. *)
Lemma reachable_creators e0 registry tr :
  Z.of_nat (length tr) < UINT256_MOD - 1 ->
  Forall (fun ec => msg_sender (fst ec) <> 0) tr ->
  let s := run tr (constructor e0 registry) in
  (forall i q, requests s !! i = Some q -> creator q <> 0) /\
  storage_ok s.
Proof.
  intros Hlen Hsenders s.
  apply (run_ind (fun ec => msg_sender (fst ec) <> 0)
           (fun s => forall i q, requests s !! i = Some q ->
                                 creator q <> 0)).
  - intros s0 e c r s' He _ _. apply creators_call. exact He.
  - exact Hsenders.
  - apply storage_ok_constructor.
  - intros j q. cbn. rewrite lookup_empty. discriminate.
  - cbn. lia.
Qed.

Lemma getRequest_stored s i :
  (forall i q, requests s !! i = Some q -> creator q <> 0) ->
  storage_ok s ->
  1 <= i <= getTotalRequests s ->
  exists q, getRequest s i = Ok q /\ id q = i.
Proof.
  intros Hcr [Hn Hs] Hi. destruct (Hs i) as [Hin _].
  unfold getTotalRequests in Hi.
  destruct (Hin Hi) as (q & Hq & Hid & _).
  unfold getRequest, validRequest, request_at.
  exists q. rewrite Hq. change (default zero_request (Some q)) with q.
  rewrite (proj2 (Z.leb_le _ _) (proj2 Hi)).
  rewrite (proj2 (Z.eqb_neq _ _) (Hcr i q Hq)).
  split; [reflexivity | exact Hid].
Qed.

(** X10. Along every trace of fewer than [2^256 - 1] transactions from the
    constructor, none sent from the zero address, [getRequest(i)] succeeds
    exactly for the identifiers 1, ..., total, returning the request whose
    [id] field is [i]; above the total it reverts with "Invalid request
    ID", below 1 with "Request does not exist". *)
Theorem getRequest_domain e0 registry tr i :
  Z.of_nat (length tr) < UINT256_MOD - 1 ->
  Forall (fun ec => msg_sender (fst ec) <> 0) tr ->
  let s := run tr (constructor e0 registry) in
  (1 <= i <= getTotalRequests s ->
   exists q, getRequest s i = Ok q /\ id q = i) /\
  (getTotalRequests s < i ->
   getRequest s i = Revert "Invalid request ID") /\
  (i < 1 -> getRequest s i = Revert "Request does not exist").
Proof.
  intros Hlen Hsenders s.
  destruct (reachable_creators e0 registry tr Hlen Hsenders) as [Hcr Hok].
  fold s in Hcr, Hok. split; [|split].
  - apply getRequest_stored; assumption.
  - intros Hi. unfold getRequest, validRequest, getTotalRequests in *.
    rewrite (proj2 (Z.leb_gt _ _) Hi). reflexivity.
  - intros Hi. destruct Hok as [Hn Hs]. destruct (Hs i) as [_ Hout].
    unfold getRequest, validRequest, request_at. rewrite Hout by lia.
    rewrite (proj2 (Z.leb_le i (requestIds s))) by lia. reflexivity.
Qed.

Lemma getRequest_domain_witness :
  let tr := [(Scenario.env Scenario.OWNER 1,
              AddAuthorizedAttestor Scenario.WALLET);
             (Scenario.env Scenario.ALICE 2, Scenario.ask "dinner");
             (Scenario.env Scenario.ALICE 3, Scenario.ask "taxi")] in
  let s := run tr (constructor (Scenario.env Scenario.OWNER 0)
                               Scenario.REGISTRY) in
  getRequest s 3 = Revert "Invalid request ID" /\
  getRequest s 0 = Revert "Request does not exist".
Proof.
  intros tr s.
  assert (Forall (fun ec => msg_sender (fst ec) <> 0) tr) as Hs
      by (repeat constructor; discriminate).
  split.
  - apply (getRequest_domain _ _ tr 3); [reflexivity | exact Hs |].
    vm_compute. reflexivity.
  - apply (getRequest_domain _ _ tr 0); [reflexivity | exact Hs | lia].
Defined.

(** *** The owner's functions *)

(** X11. Each of the five administrative functions succeeds exactly when
    the sender is the owner, and then changes neither the owner, nor the
    counter, nor any request, nor any user's list. *)
Theorem admin_only_owner e c s :
  is_admin c = true ->
  (is_ok (call e c s) = true <-> msg_sender e = owner s) /\
  (forall r s',
      call e c s = Ok (r, s') ->
      owner s' = owner s /\ requestIds s' = requestIds s /\
      requests s' = requests s /\ userRequests s' = userRequests s).
Proof.
  intros Hc. split.
  - destruct c; try discriminate Hc; cbn [call];
      unfold addAuthorizedAttestor, removeAuthorizedAttestor,
        addSupportedAsset, removeSupportedAsset, updateFtsoRegistry,
        onlyOwner;
      case_bool_decide as Ho; cbn; split; congruence.
  - intros r s' H. apply call_effect in H.
    destruct c; try discriminate Hc; destruct H as (_ & _ & ->);
      repeat split.
Qed.

Lemma admin_only_owner_witness :
  is_ok (call (Scenario.env Scenario.ALICE 5)
              (AddAuthorizedAttestor Scenario.ALICE) Scenario.one_pending)
  = false /\
  is_ok (call (Scenario.env Scenario.OWNER 5)
              (RemoveSupportedAsset "BTC") Scenario.one_pending)
  = true.
Proof.
  split.
  - apply not_true_is_false. intros H.
    apply (proj1 (admin_only_owner (Scenario.env Scenario.ALICE 5)
                    (AddAuthorizedAttestor Scenario.ALICE)
                    Scenario.one_pending eq_refl)) in H.
    vm_compute in H. discriminate H.
  - apply (proj1 (admin_only_owner (Scenario.env Scenario.OWNER 5)
                    (RemoveSupportedAsset "BTC") Scenario.one_pending
                    eq_refl)).
    vm_compute. reflexivity.
Defined.

End Reachable.

(** ** Prices *)

Module Prices.
Import RequestManager Conversion.

Lemma in_uint256_iff x : in_uint256 x = true <-> 0 <= x < UINT256_MOD.
Proof.
  unfold in_uint256. rewrite andb_true_iff, Z.leb_le, Z.ltb_lt. tauto.
Qed.

(** A conversion that succeeds for a symbol other than "XRP" had two
    positive prices and products that fit. *)
Lemma conversion_Ok e s sym a x :
  sym <> "XRP" ->
  calculateXRPAmount e s sym a = Ok x ->
  exists pa ta da px tx dx,
    ftso_at e (ftsoRegistry s) sym = Ok (pa, ta, da) /\
    ftso_at e (ftsoRegistry s) "XRP" = Ok (px, tx, dx) /\
    0 < pa /\ 0 < px /\ products_fit a pa da px dx = true /\
    px * 10 ^ da <> 0 /\
    x = (a * pa * 10 ^ dx) / (px * 10 ^ da).
Proof.
  intros Hsym H.
  destruct (ftso_at e (ftsoRegistry s) sym) as [[[pa ta] da]|] eqn:Ea.
  2:{ unfold calculateXRPAmount in H.
      rewrite bool_decide_eq_false_2, Ea in H by exact Hsym.
      discriminate H. }
  destruct (ftso_at e (ftsoRegistry s) "XRP") as [[[px tx] dx]|] eqn:Ex.
  2:{ unfold calculateXRPAmount in H.
      rewrite bool_decide_eq_false_2, Ea, Ex in H by exact Hsym.
      discriminate H. }
  rewrite (CalculateXRPAmount.other_symbol e s sym a pa ta da px tx dx
             Hsym Ea Ex) in H.
  destruct ((0 <? pa) && (0 <? px)) eqn:Ep; [|discriminate H].
  apply andb_true_iff in Ep as [Hpa Hpx].
  apply Z.ltb_lt in Hpa, Hpx. cbn [require mbind result_bind] in H.
  destruct (products_fit a pa da px dx) eqn:Ef; [|discriminate H].
  unfold checked_div in H.
  destruct (Z.eqb_spec (px * 10 ^ da) 0) as [|Hden]; [discriminate H|].
  injection H as <-. exists pa, ta, da, px, tx, dx. auto 10.
Qed.

(** X12. The conversion is monotone and downward closed in the amount:
    when [calculateXRPAmount] succeeds for an amount, it succeeds for every
    smaller non-negative amount of the same asset at the same prices, with
    a result that is not larger. *)
Theorem calculateXRPAmount_monotone e s sym a b y :
  0 <= a <= b ->
  calculateXRPAmount e s sym b = Ok y ->
  exists x, calculateXRPAmount e s sym a = Ok x /\ x <= y.
Proof.
  intros Hab Hb. destruct (decide (sym = "XRP")) as [->|Hsym].
  - rewrite CalculateXRPAmount.XRP_identity in Hb. injection Hb as <-.
    exists a. rewrite CalculateXRPAmount.XRP_identity. split; [reflexivity|lia].
  - destruct (conversion_Ok e s sym b y Hsym Hb)
      as (pa & ta & da & px & tx & dx & Ea & Ex & Hpa & Hpx & Hfit & Hden
          & ->).
    rewrite (CalculateXRPAmount.other_symbol e s sym a pa ta da px tx dx
               Hsym Ea Ex).
    rewrite (proj2 (Z.ltb_lt 0 pa) Hpa), (proj2 (Z.ltb_lt 0 px) Hpx).
    cbn [andb require mbind result_bind].
    unfold products_fit in Hfit.
    repeat (apply andb_true_iff in Hfit as [Hfit ?]).
    repeat match goal with
           | Hc : in_uint256 _ = true |- _ => apply in_uint256_iff in Hc
           end.
    assert (a * pa <= b * pa) by nia.
    assert (a * pa * 10 ^ dx <= b * pa * 10 ^ dx) by nia.
    assert (products_fit a pa da px dx = true) as ->.
    { unfold products_fit. rewrite !andb_true_iff.
      repeat split; apply in_uint256_iff; nia. }
    unfold checked_div. rewrite (proj2 (Z.eqb_neq _ _) Hden).
    eexists. split; [reflexivity|].
    apply Z.div_le_mono; nia.
Qed.

(** One bitcoin (8 decimals) costs no more XRP than two. *)
Lemma calculateXRPAmount_monotone_witness :
  exists x,
    calculateXRPAmount (Scenario.env 1 0) Scenario.fresh "BTC" 100000000
    = Ok x /\
    x <= 18000000000000.
Proof.
  apply (calculateXRPAmount_monotone (Scenario.env 1 0) Scenario.fresh
           "BTC" 100000000 200000000 18000000000000).
  - lia.
  - vm_compute. reflexivity.
Defined.

(** X13. [getExchangeRate] succeeds whenever the conversion of an asset
    other than XRP does, and then reports two positive prices; for "XRP"
    itself the two prices it reports are the same. *)
Theorem getExchangeRate_with_conversion e s :
  (forall sym a x,
      sym <> "XRP" ->
      calculateXRPAmount e s sym a = Ok x ->
      exists assetPrice xrpPrice timestamp,
        getExchangeRate e s sym = Ok (assetPrice, xrpPrice, timestamp) /\
        0 < assetPrice /\ 0 < xrpPrice) /\
  (forall assetPrice xrpPrice timestamp,
      getExchangeRate e s "XRP" = Ok (assetPrice, xrpPrice, timestamp) ->
      assetPrice = xrpPrice).
Proof.
  split.
  - intros sym a x Hsym H.
    destruct (conversion_Ok e s sym a x Hsym H)
      as (pa & ta & da & px & tx & dx & Ea & Ex & Hpa & Hpx & _).
    exists pa, px, ta. unfold getExchangeRate. rewrite Ea, Ex. auto.
  - intros pa px t H. unfold getExchangeRate in H.
    destruct (ftso_at e (ftsoRegistry s) "XRP") as [[[p t0] d]|];
      [|discriminate H].
    injection H as <- <- _. reflexivity.
Qed.

Lemma getExchangeRate_with_conversion_witness :
  exists assetPrice xrpPrice timestamp,
    getExchangeRate (Scenario.env 1 0) Scenario.fresh "ETH"
    = Ok (assetPrice, xrpPrice, timestamp) /\
    0 < assetPrice /\ 0 < xrpPrice.
Proof.
  apply (proj1 (getExchangeRate_with_conversion (Scenario.env 1 0)
                  Scenario.fresh) "ETH" (10 ^ 18) (4000 * 10 ^ 18)).
  - discriminate.
  - vm_compute. reflexivity.
Defined.

(** *** The mock registry *)

Lemma mock_price_positive prices sym p t d :
  MockFtsoRegistry.getCurrentPriceWithDecimals prices sym = Ok (p, t, d) ->
  0 < p.
Proof.
  unfold MockFtsoRegistry.getCurrentPriceWithDecimals.
  destruct (Z.ltb_spec 0
              (MockFtsoRegistry.price
                 (default (MockFtsoRegistry.mkPriceData 0 0 0)
                          (prices !! sym)))); cbn; [|discriminate].
  intros [= <- _ _]. assumption.
Qed.

(** X14. A price written with [updatePrice] is what both getters read
    back for that symbol, with the time of the update, provided it is
    positive; a price of zero makes the symbol read as "Price not
    available"; the other symbols read as before. The two getters agree
    on every symbol. *)
Theorem updatePrice_getCurrentPrice now prices sym p d sym' :
  MockFtsoRegistry.getCurrentPriceWithDecimals
    (MockFtsoRegistry.updatePrice now prices sym p d) sym'
  = (if bool_decide (sym = sym')
     then if 0 <? p then Ok (p, now, d) else Revert "Price not available"
     else MockFtsoRegistry.getCurrentPriceWithDecimals prices sym') /\
  MockFtsoRegistry.getCurrentPrice prices sym'
  = (MockFtsoRegistry.getCurrentPriceWithDecimals prices sym'
     ≫= fun '(p', t', _) => Ok (p', t')).
Proof.
  split.
  - unfold MockFtsoRegistry.getCurrentPriceWithDecimals,
      MockFtsoRegistry.updatePrice, MockFtsoRegistry.State in *.
    cbv zeta. case_bool_decide as Hs.
    + subst sym'. rewrite lookup_insert_eq. cbn.
      destruct (0 <? p); reflexivity.
    + rewrite lookup_insert_ne by exact Hs. reflexivity.
  - unfold MockFtsoRegistry.getCurrentPrice,
      MockFtsoRegistry.getCurrentPriceWithDecimals.
    destruct (0 <? _); reflexivity.
Qed.

(** X15. Behind the mock registry the contract's own price check never
    fires: whatever prices the mock holds, [calculateXRPAmount] does not
    revert with "Invalid price data" (a missing or zero price surfaces as
    the registry's "Price not available"). *)
Theorem mock_never_invalid_price prices e s sym a :
  ftso_at e (ftsoRegistry s)
  = MockFtsoRegistry.getCurrentPriceWithDecimals prices ->
  calculateXRPAmount e s sym a <> Revert "Invalid price data".
Proof.
  intros Hfeed. destruct (decide (sym = "XRP")) as [->|Hsym];
    [rewrite CalculateXRPAmount.XRP_identity; discriminate|].
  destruct (ftso_at e (ftsoRegistry s) sym) as [[[pa ta] da]|ra] eqn:Ea.
  2:{ unfold calculateXRPAmount.
      rewrite bool_decide_eq_false_2, Ea by exact Hsym. cbn.
      rewrite Hfeed in Ea.
      unfold MockFtsoRegistry.getCurrentPriceWithDecimals in Ea.
      destruct (0 <? _) in Ea; [discriminate Ea|].
      injection Ea as <-. discriminate. }
  destruct (ftso_at e (ftsoRegistry s) "XRP") as [[[px tx] dx]|rx] eqn:Ex.
  2:{ unfold calculateXRPAmount.
      rewrite bool_decide_eq_false_2, Ea, Ex by exact Hsym. cbn.
      rewrite Hfeed in Ex.
      unfold MockFtsoRegistry.getCurrentPriceWithDecimals in Ex.
      destruct (0 <? _) in Ex; [discriminate Ex|].
      injection Ex as <-. discriminate. }
  rewrite (CalculateXRPAmount.other_symbol e s sym a pa ta da px tx dx
             Hsym Ea Ex).
  rewrite Hfeed in Ea, Ex.
  apply mock_price_positive in Ea, Ex.
  rewrite (proj2 (Z.ltb_lt 0 pa) Ea), (proj2 (Z.ltb_lt 0 px) Ex).
  cbn [andb require mbind result_bind].
  destruct (products_fit a pa da px dx); [|discriminate].
  unfold checked_div. destruct (_ =? 0); discriminate.
Qed.

Lemma mock_never_invalid_price_witness :
  calculateXRPAmount (Scenario.env 1 0) Scenario.fresh "DOGE" 5
  <> Revert "Invalid price data".
Proof.
  apply (mock_never_invalid_price (MockFtsoRegistry.constructor 0)).
  reflexivity.
Defined.

(** X16. Every asset a freshly constructed contract supports has a
    price in a freshly constructed mock registry; no other symbol has. *)
Theorem fresh_assets_priced e registry now sym :
  supportedAssets (constructor e registry) !! sym = Some true <->
  is_ok (MockFtsoRegistry.getCurrentPriceWithDecimals
           (MockFtsoRegistry.constructor now) sym) = true.
Proof.
  unfold MockFtsoRegistry.getCurrentPriceWithDecimals,
    MockFtsoRegistry.constructor, MockFtsoRegistry.State, constructor.
  cbn [supportedAssets]. cbv zeta.
  repeat match goal with
         | |- context [<[?k := _]> _ !! sym] =>
             destruct (decide (sym = k)) as [->|?];
             [ split; reflexivity
             | rewrite 2 (lookup_insert_ne _ k sym) by congruence ]
         end.
  rewrite !lookup_empty. cbn. split; discriminate.
Qed.

End Prices.

(** ** What a callback of the XRPL timer can do *)

Module TickFacts.
Import RequestManager Attestor Schedule ServiceFacts.

Section WithClient.
Context {W : Type} {client : ChainClient W}.

Lemma follows_refl c0 (r : Run W) : follows c0 r r.
Proof.
  split; [reflexivity|]. split; [auto|]. split; [reflexivity|].
  exists []. rewrite app_nil_r. split; [reflexivity | constructor].
Qed.

Lemma follows_trans c0 (r1 r2 r3 : Run W) :
  follows c0 r1 r2 -> follows c0 r2 r3 -> follows c0 r1 r3.
Proof.
  intros (A1 & A2 & A3 & n1 & A4 & A5) (B1 & B2 & B3 & n2 & B4 & B5).
  split; [congruence|]. split; [auto|]. split; [set_solver|].
  exists (n1 ++ n2). rewrite B4, A4, app_assoc.
  split; [reflexivity | apply Forall_app; auto].
Qed.

Lemma check_one_follows c0 tx (r : Run W) k q :
  (k, q) ∈ c0 -> follows c0 r (check_one tx r (k, q)).
Proof. intros _. rewrite check_one_idle. apply follows_refl. Qed.

Lemma check_fold_follows c0 tx l :
  forall r : Run W,
    (forall kv, kv ∈ l -> kv ∈ c0) ->
    follows c0 r (fold_left (check_one tx) l r).
Proof.
  induction l as [|[k q] l IH]; intros r Hl; [apply follows_refl|].
  cbn [fold_left].
  eapply follows_trans.
  - apply check_one_follows. apply Hl. apply list_elem_of_here.
  - apply IH. intros kv Hkv. apply Hl. apply list_elem_of_further.
    exact Hkv.
Qed.

Lemma processTransaction_follows c0 (r : Run W) tx :
  (forall kv, kv ∈ pendingRequests (att r) -> kv ∈ c0) ->
  follows c0 r (processTransaction r tx).
Proof.
  intros Hc. unfold processTransaction.
  case_bool_decide; [apply follows_refl|].
  assert (follows c0 r
            (if bool_decide (TransactionType tx = "Payment")
             then checkPaymentTransaction tx r else r))
    as (A1 & A2 & A3 & new & A4 & A5).
  { case_bool_decide; [|apply follows_refl].
    apply check_fold_follows. exact Hc. }
  split; [exact A1|]. split; [exact A2|].
  split; [cbn [att processedTransactions add_processedTransaction];
          set_solver|].
  exists new. auto.
Qed.

(** A fold of steps each of which [follows], from a cache inside [c0]. *)
Lemma fold_follows {A} (f : Run W -> A -> Run W) c0 :
  (forall r x,
      (forall kv, kv ∈ pendingRequests (att r) -> kv ∈ c0) ->
      follows c0 r (f r x)) ->
  forall l r,
    (forall kv, kv ∈ pendingRequests (att r) -> kv ∈ c0) ->
    follows c0 r (fold_left f l r).
Proof.
  intros Hf l. induction l as [|x l IH]; intros r Hc; [apply follows_refl|].
  cbn [fold_left]. pose proof (Hf r x Hc) as Hstep.
  eapply follows_trans; [exact Hstep|].
  apply IH. intros kv Hkv. apply Hc.
  destruct Hstep as (_ & Hsub & _). auto.
Qed.

Lemma processLedger_follows x c0 (r : Run W) i :
  (forall kv, kv ∈ pendingRequests (att r) -> kv ∈ c0) ->
  follows c0 r (processLedger x r i).
Proof.
  intros Hc. unfold processLedger.
  destruct (ledger x i) as [[txs|]|]; try apply follows_refl.
  apply fold_follows; [|exact Hc].
  intros r0 tx. apply processTransaction_follows.
Qed.

Lemma checkXRPLTransactions_follows x (r : Run W) :
  follows (pendingRequests (att r)) r (checkXRPLTransactions x r).
Proof.
  unfold checkXRPLTransactions.
  destruct (server_info x) as [currentLedger|]; [|apply follows_refl].
  match goal with
  | |- follows _ _ (mkRun _ (chain ?r') _) =>
      assert (follows (pendingRequests (att r)) r r')
        as (A1 & A2 & A3 & A4)
  end.
  { destruct (lastProcessedLedger (att r)) as [last|];
      [|apply follows_refl].
    destruct (_ && _); [|apply follows_refl].
    apply fold_follows; [|auto].
    intros r0 i. apply processLedger_follows. }
  split; [exact A1|]. split; [exact A2|]. split; [exact A3 | exact A4].
Qed.

Lemma xrplMonitoringTick_isRunning x (r : Run W) :
  isRunning (att (xrplMonitoringTick x r)) = isRunning (att r).
Proof.
  unfold xrplMonitoringTick.
  destruct (negb (isRunning (att r))); [reflexivity|].
  apply checkXRPLTransactions_follows.
Qed.

(** X17. One callback of the XRPL timer keeps the running flag, adds no
    entry to the request cache, forgets no processed hash, keeps the
    submissions made so far and adds only submissions for requests that
    were in the cache when it began, each with the request's asset amount
    as the paid amount. *)
Theorem xrplMonitoringTick_follows x (r : Run W) :
  follows (pendingRequests (att r)) r (xrplMonitoringTick x r).
Proof.
  unfold xrplMonitoringTick.
  destruct (negb (isRunning (att r)));
    [apply follows_refl | apply checkXRPLTransactions_follows].
Qed.

(** *** The service submits nothing *)

Lemma Map_has_set {V} k i (v : V) (m : JsMap V) :
  Map_has k m = true -> Map_has k (Map_set i v m) = true.
Proof.
  intros H. unfold Map_set. destruct (Map_has i m).
  - unfold Map_has in *. apply existsb_exists in H as ([k' v'] & Hin & Hk).
    cbn [fst] in Hk. apply existsb_exists.
    exists (if k' =? i then (i, v) else (k', v')). split.
    + apply (in_map (fun kv => if fst kv =? i then (i, v) else kv)
               m (k', v')). exact Hin.
    + destruct (k' =? i) eqn:E; cbn [fst]; [|exact Hk].
      apply Z.eqb_eq in E. congruence.
  - unfold Map_has in *. rewrite existsb_app, H. reflexivity.
Qed.

Lemma load_fold_keeps (w : W) k ids :
  forall m,
    Map_has k m = true -> Map_has k (fold_left (load_one w) ids m) = true.
Proof.
  induction ids as [|i ids IH]; intros m H; [exact H|].
  cbn [fold_left]. apply IH. unfold load_one.
  destruct (getRequest w i) as [request|]; [|exact H].
  destruct (_ =? 1); [apply Map_has_set|]; exact H.
Qed.

Lemma requestMonitoringTick_keeps (w : W) a k :
  Map_has k (pendingRequests a) = true ->
  Map_has k (pendingRequests (requestMonitoringTick w a)) = true.
Proof.
  intros H. unfold requestMonitoringTick.
  destruct (negb (isRunning a)); [exact H|].
  destruct (_ ← getTotalRequests w; toNumber _); [|exact H].
  cbn [pendingRequests set_pendingRequests]. apply load_fold_keeps.
  exact H.
Qed.

(** X18. Over any sequence of callbacks of the two timers, each run to
    its end before the next begins, and of transactions by others on the
    chain, the service submits no attestation and every identifier in its
    cache stays there; the chain is as the others left it. *)
Theorem service_never_submits ts :
  forall r : Run W,
    let r' := fold_left tick ts r in
    submitted r' = submitted r /\
    (forall k, Map_has k (pendingRequests (att r)) = true ->
               Map_has k (pendingRequests (att r')) = true) /\
    (Forall (fun t => is_Elsewhere t = false) ts -> chain r' = chain r).
Proof.
  induction ts as [|t ts IH]; intros r; [cbn; auto|].
  cbn [fold_left]. cbv zeta.
  destruct (IH (tick r t)) as (I1 & I2 & I3).
  assert (submitted (tick r t) = submitted r /\
          (forall k, Map_has k (pendingRequests (att r)) = true ->
                     Map_has k (pendingRequests (att (tick r t))) = true) /\
          (is_Elsewhere t = false -> chain (tick r t) = chain r))
    as (S1 & S2 & S3).
  { destruct t as [x| |w']; cbn [tick is_Elsewhere att submitted chain].
    - destruct (xrplMonitoringTick_untouched x r) as (U1 & U2 & U3).
      rewrite U1, U2, U3. auto.
    - split; [reflexivity|]. split; [|reflexivity].
      intros k. apply requestMonitoringTick_keeps.
    - split; [reflexivity|]. split; [auto | discriminate]. }
  split; [congruence|]. split; [auto|].
  intros Hts. apply Forall_cons in Hts as [Ht Hts].
  rewrite (I3 Hts). apply S3. exact Ht.
Qed.

(** *** A stopped service *)

(** X19. After [stop()] nothing moves: over any sequence of callbacks of
    the two timers and of transactions by others, the service keeps the
    state [stop] left and submits nothing. *)
Theorem stopped_service_idle a (w : W) l ts :
  let r' := fold_left tick ts (mkRun (stop a) w l) in
  att r' = stop a /\ submitted r' = l.
Proof.
  cbv zeta. revert w. induction ts as [|t ts IH]; intros w; [auto|].
  cbn [fold_left].
  replace (tick (mkRun (stop a) w l) t)
    with (mkRun (stop a) (chain (tick (mkRun (stop a) w l) t)) l);
    [apply IH|].
  destruct t; reflexivity.
Qed.

(** *** A callback reads the new ledgers only *)

Lemma fold_left_ext_in {A B} (f g : A -> B -> A) l :
  (forall a x, x ∈ l -> f a x = g a x) ->
  forall a, fold_left f l a = fold_left g l a.
Proof.
  induction l as [|x l IH]; intros H a; [reflexivity|].
  cbn [fold_left]. rewrite H by apply list_elem_of_here.
  apply IH. intros a' y Hy. apply H. apply list_elem_of_further. exact Hy.
Qed.

Lemma checkXRPLTransactions_local x x' (r : Run W) :
  server_info x = server_info x' ->
  (forall i last currentLedger,
      lastProcessedLedger (att r) = Some last ->
      server_info x = Ok currentLedger ->
      last < i <= currentLedger -> ledger x i = ledger x' i) ->
  checkXRPLTransactions x r = checkXRPLTransactions x' r.
Proof.
  intros Hinfo Hledger. unfold checkXRPLTransactions. rewrite <- Hinfo.
  destruct (server_info x) as [currentLedger|]; [|reflexivity].
  destruct (lastProcessedLedger (att r)) as [last|]; [|reflexivity].
  destruct (_ && _); [|reflexivity].
  rewrite (fold_left_ext_in (processLedger x) (processLedger x')).
  - reflexivity.
  - intros r0 i Hi. apply elem_of_seqZ in Hi. unfold processLedger.
    rewrite (Hledger i last currentLedger) by (reflexivity || lia).
    reflexivity.
Qed.

(** X20. A callback of the XRPL timer reads only the ledgers above the
    watermark, up to the validated one; and since it leaves the validated
    index as the watermark, the next callback reads only ledgers above
    that: what a node answers for an older ledger, one whose fetch failed
    included, no longer matters. *)
Theorem tick_reads_new_ledgers x1 x2 x2' (r : Run W) validated :
  server_info x1 = Ok validated ->
  isRunning (att r) = true ->
  server_info x2 = server_info x2' ->
  (forall i, validated < i -> ledger x2 i = ledger x2' i) ->
  xrplMonitoringTick x2 (xrplMonitoringTick x1 r)
  = xrplMonitoringTick x2' (xrplMonitoringTick x1 r).
Proof.
  intros H1 Hrun Hinfo Hledger.
  pose proof (xrplMonitoringTick_isRunning x1 r) as Hsame.
  unfold xrplMonitoringTick at 1 3. rewrite Hsame, Hrun. cbn [negb].
  apply checkXRPLTransactions_local; [exact Hinfo|].
  intros i last cur Hlast _ Hi. apply Hledger.
  unfold xrplMonitoringTick in Hlast. rewrite Hrun in Hlast.
  cbn [negb] in Hlast.
  rewrite (checkXRPLTransactions_watermark x1 r validated H1) in Hlast.
  injection Hlast as <-. lia.
Qed.

End WithClient.

(** Ledger 101 could not be fetched on the first callback; on the second
    it would hold a payment, and is not looked at. *)
Lemma tick_reads_new_ledgers_witness :
  let x1 := mkXrpl (Ok tt) (Ok 101) (fun _ => Revert "timeout") in
  let late := fun i => if i =? 101
                       then Ok (Some [Scenario.payment "AB12" 1000000000])
                       else Ok (Some []) in
  xrplMonitoringTick (mkXrpl (Ok tt) (Ok 102) late)
                     (xrplMonitoringTick x1 Scenario.run0)
  = xrplMonitoringTick (mkXrpl (Ok tt) (Ok 102) (fun _ => Ok (Some [])))
                       (xrplMonitoringTick x1 Scenario.run0).
Proof.
  intros x1 late.
  apply (tick_reads_new_ledgers x1 _ _ Scenario.run0 101).
  - reflexivity.
  - vm_compute. reflexivity.
  - reflexivity.
  - intros i Hi. cbn [ledger]. unfold late.
    rewrite (proj2 (Z.eqb_neq i 101)) by lia. reflexivity.
Defined.

(** Two payments of request 1's amount to its recipient, on two ticks
    with a refresh of the cache in between: nothing is submitted and
    request 1 stays cached. *)
Lemma service_never_submits_witness :
  let ts := [XrplTick (Scenario.xrpl 101
                         [Scenario.payment "AB12" 1000000000]);
             RequestTick;
             XrplTick (Scenario.xrpl 102
                         [Scenario.payment "CD34" 1000000000])] in
  List.map fst (pendingRequests (att Scenario.run0)) = [1] /\
  submitted (fold_left tick ts Scenario.run0) = [] /\
  Map_has 1 (pendingRequests (att (fold_left tick ts Scenario.run0)))
  = true /\
  chain (fold_left tick ts Scenario.run0) = chain Scenario.run0.
Proof.
  intros ts.
  destruct (service_never_submits ts Scenario.run0) as (H1 & H2 & H3).
  split; [vm_compute; reflexivity|]. split; [exact H1|].
  split; [apply H2; vm_compute; reflexivity|].
  apply H3. repeat constructor.
Defined.

End TickFacts.

(** ** Loading the cache and starting *)

Module Loading.
Import RequestManager Attestor Schedule ServiceFacts.

Lemma keys_Map_set {V} i (v : V) (m : JsMap V) :
  fst <$> Map_set i v m
  = if Map_has i m then fst <$> m else (fst <$> m) ++ [i].
Proof.
  unfold Map_set. destruct (Map_has i m).
  - induction m as [|[k q] m IH]; [reflexivity|].
    cbn [List.map]. rewrite !fmap_cons, <- IH. cbn [fst].
    destruct (Z.eqb_spec k i) as [->|]; reflexivity.
  - rewrite fmap_app. reflexivity.
Qed.

Lemma distinct_keys_set {V} i (v : V) (m : JsMap V) :
  distinct_keys m -> distinct_keys (Map_set i v m).
Proof.
  unfold distinct_keys. intros H. rewrite keys_Map_set.
  destruct (Map_has i m) eqn:E; [exact H|].
  apply NoDup_app. split; [exact H|]. split; [|apply NoDup_singleton].
  intros k Hk Hi. apply list_elem_of_singleton in Hi. subst k.
  apply list_elem_of_fmap in Hk as ([k q] & Heq & Hin). cbn [fst] in Heq.
  subst k. exact (JsMapFacts.Map_has_false i m q E Hin).
Qed.

Section WithClient.
Context {W : Type} {client : ChainClient W}.

Lemma load_fold_distinct (w : W) ids :
  forall m, distinct_keys m -> distinct_keys (fold_left (load_one w) ids m).
Proof.
  induction ids as [|i ids IH]; intros m H; [exact H|].
  cbn [fold_left]. apply IH. unfold load_one.
  destruct (getRequest w i) as [request|]; [|exact H].
  destruct (_ =? 1); [apply distinct_keys_set|]; exact H.
Qed.

Lemma toNumber_Ok x n :
  toNumber x = Ok n <-> n = x /\ - MAX_SAFE_INTEGER <= x <= MAX_SAFE_INTEGER.
Proof.
  unfold toNumber.
  destruct (Z.leb_spec (- MAX_SAFE_INTEGER) x),
           (Z.leb_spec x MAX_SAFE_INTEGER); cbn [andb]; split;
    try (intros [= <-]; auto); try discriminate; try lia.
  intros [-> _]. reflexivity.
Qed.

Lemma loadPendingRequests_Ok cfg (w : W) a n a' :
  getTotalRequests w = Ok n ->
  loadPendingRequests cfg w a = Ok a' ->
  let start := Z.max 0 (n - Z.min (batchSize cfg) n) in
  a' = set_pendingRequests
         (fold_left (load_one w) (seqZ start (n - start))
                    (pendingRequests a)) a.
Proof.
  intros Hn H. unfold loadPendingRequests in H. rewrite Hn in H.
  cbn [mbind result_bind] in H.
  destruct (toNumber n) as [n'|] eqn:Et; [|discriminate H].
  apply toNumber_Ok in Et as [-> _]. cbn [mbind result_bind] in H.
  injection H as <-. reflexivity.
Qed.

(** X21. [loadPendingRequests] fails only when the total cannot be read
    or is no safe integer; a request that cannot be fetched is skipped.
    When it succeeds for a total [n] and batch size [B] it changes the
    cache alone, keeps its keys distinct, and every entry it leaves that
    was not there before was fetched under an identifier from
    [max(0, n - min(B, n))] up to [n - 1] and has status code 1, which the
    contract's enumeration calls PAID. *)
Theorem loadPendingRequests_result cfg (w : W) a :
  (is_ok (loadPendingRequests cfg w a) = true <->
   exists n, getTotalRequests w = Ok n /\
             - MAX_SAFE_INTEGER <= n <= MAX_SAFE_INTEGER) /\
  (forall n a',
      getTotalRequests w = Ok n ->
      loadPendingRequests cfg w a = Ok a' ->
      isRunning a' = isRunning a /\
      lastProcessedLedger a' = lastProcessedLedger a /\
      processedTransactions a' = processedTransactions a /\
      (distinct_keys (pendingRequests a) ->
       distinct_keys (pendingRequests a')) /\
      (forall kv,
          kv ∈ pendingRequests a' ->
          kv ∈ pendingRequests a \/
          (Z.max 0 (n - Z.min (batchSize cfg) n) <= fst kv < n /\
           getRequest w (fst kv) = Ok (snd kv) /\
           status (snd kv) = PAID))).
Proof.
  unfold loadPendingRequests. split.
  - destruct (getTotalRequests w) as [n|] eqn:En; cbn [mbind result_bind].
    + destruct (toNumber n) as [n'|] eqn:Et; cbn [mbind result_bind is_ok].
      * apply toNumber_Ok in Et as [-> Hn]. split; [eauto | reflexivity].
      * split; [discriminate|]. intros (n0 & [= <-] & Hn).
        assert (toNumber n = Ok n) as Hok by (apply toNumber_Ok; auto).
        congruence.
    + cbn. split; [discriminate|]. intros (n0 & Hn & _). discriminate Hn.
  - intros n a' Hn H. fold (loadPendingRequests cfg w a) in H.
    rewrite (loadPendingRequests_Ok cfg w a n a' Hn H). cbv zeta.
    cbn [set_pendingRequests isRunning
      lastProcessedLedger processedTransactions pendingRequests].
    split; [reflexivity|]. split; [reflexivity|]. split; [reflexivity|].
    split; [apply load_fold_distinct|].
    intros kv Hin. apply load_fold_adds in Hin as [Hin|(H1 & H2 & H3)];
      [auto|].
    right. apply elem_of_seqZ in H1. split; [lia | auto].
Qed.

(** X22. A callback of the request timer changes the cache alone and
    keeps its keys distinct. Every entry it leaves that was not there
    before was fetched under an identifier from the size of the cache up
    to the total minus one and has status code 1 (PAID). It changes
    nothing at all when the service is not running, when the total cannot
    be read, or when the total does not exceed the size of the cache. *)
Theorem requestMonitoringTick_result (w : W) a :
  let a' := requestMonitoringTick w a in
  isRunning a' = isRunning a /\
  lastProcessedLedger a' = lastProcessedLedger a /\
  processedTransactions a' = processedTransactions a /\
  (distinct_keys (pendingRequests a) -> distinct_keys (pendingRequests a'))
  /\
  (forall kv,
      kv ∈ pendingRequests a' ->
      kv ∈ pendingRequests a \/
      exists n,
        getTotalRequests w = Ok n /\
        Map_size (pendingRequests a) <= fst kv < n /\
        getRequest w (fst kv) = Ok (snd kv) /\ status (snd kv) = PAID) /\
  (isRunning a = false -> a' = a) /\
  (is_ok (getTotalRequests w) = false -> a' = a) /\
  (forall n, getTotalRequests w = Ok n ->
             n <= Map_size (pendingRequests a) -> a' = a).
Proof.
  cbv zeta. unfold requestMonitoringTick.
  destruct (isRunning a) eqn:Erun; cbn [negb].
  2:{ repeat split; auto. }
  destruct (getTotalRequests w) as [n|] eqn:En; cbn [mbind result_bind].
  2:{ rewrite Erun. repeat split; auto; discriminate. }
  destruct (toNumber n) as [n'|] eqn:Et.
  2:{ rewrite Erun. repeat split; auto; discriminate. }
  apply toNumber_Ok in Et as [-> _].
  cbn [set_pendingRequests isRunning lastProcessedLedger
       processedTransactions pendingRequests].
  split; [exact Erun|].
  split; [reflexivity|]. split; [reflexivity|].
  split; [apply load_fold_distinct|]. split; [|split; [|split]].
  - intros kv Hin. apply load_fold_adds in Hin as [Hin|(H1 & H2 & H3)];
      [auto|].
    right. exists n. apply elem_of_seqZ in H1.
    split; [reflexivity|]. split; [lia | auto].
  - discriminate.
  - discriminate.
  - intros n0 [= <-] Hle. rewrite seqZ_nil by lia. cbn [fold_left].
    destruct a; cbn in Erun |- *. rewrite Erun. reflexivity.
Qed.

(** X23. [start()] either leaves a running service or exits with code 1.
    It leaves a running service only if the XRPL node could be reached and
    reported a validated ledger, both configuration strings were present,
    the ethers objects could be built and the total could be read; the
    service then runs with the reported ledger as its watermark, the
    processed set it was constructed with, and distinct keys in its cache
    if it was constructed so. *)
Theorem start_outcome cfg x ethers (w : W) a :
  (forall code, start cfg x ethers w a = Exited code -> code = 1) /\
  (forall a',
      start cfg x ethers w a = Started a' ->
      connect x = Ok tt /\
      server_info x = Ok (default 0 (lastProcessedLedger a')) /\
      is_Some (lastProcessedLedger a') /\
      falsy_string (privateKey cfg) = false /\
      falsy_string (requestManagerAddress cfg) = false /\
      ethers (default "" (privateKey cfg))
             (default "" (requestManagerAddress cfg)) = Ok tt /\
      is_ok (getTotalRequests w) = true /\
      isRunning a' = true /\
      processedTransactions a' = processedTransactions a /\
      (distinct_keys (pendingRequests a) ->
       distinct_keys (pendingRequests a'))).
Proof.
  unfold start. split.
  - destruct (initialize cfg x ethers w a); intros code [= <-]. reflexivity.
  - intros a' H.
    destruct (initialize cfg x ethers w a) as [a2|] eqn:E;
      [|discriminate H].
    injection H as <-. unfold initialize in E.
    destruct (initializeXRPL x a) as [a1|] eqn:E1; [|discriminate E].
    cbn [mbind result_bind] in E.
    destruct (initializeFlare cfg ethers) as [[]|] eqn:E2;
      [|discriminate E].
    cbn [mbind result_bind] in E.
    unfold initializeXRPL in E1. inv_binds E1. injection E1 as <-.
    unfold initializeFlare in E2. inv_binds E2.
    destruct (getTotalRequests w) as [n|] eqn:En.
    2:{ unfold loadPendingRequests in E. rewrite En in E. discriminate E. }
    rewrite (loadPendingRequests_Ok cfg w _ n a2 En E). cbv zeta.
    pose proof (load_fold_distinct w
                  (seqZ (Z.max 0 (n - Z.min (batchSize cfg) n))
                     (n - Z.max 0 (n - Z.min (batchSize cfg) n)))
                  (pendingRequests a)) as L4.
    cbn [set_isRunning isRunning lastProcessedLedger processedTransactions
         pendingRequests set_lastProcessedLedger] in *.
    cbn [default].
    repeat match goal with
           | Hc : negb _ = true |- _ => apply negb_true_iff in Hc
           | u : unit |- _ => destruct u
           end.
    repeat (split; [first [assumption | reflexivity | eauto]|]).
    exact L4.
Qed.

End WithClient.

Lemma loadPendingRequests_result_witness :
  exists a',
    loadPendingRequests Scenario.config
      (Scenario.chain_at 10 Scenario.two_paid) Attestor.constructor
    = Ok a' /\
    distinct_keys (pendingRequests a') /\
    forall kv, kv ∈ pendingRequests a' -> status (snd kv) = PAID.
Proof.
  destruct (loadPendingRequests Scenario.config
              (Scenario.chain_at 10 Scenario.two_paid) Attestor.constructor)
    as [a'|] eqn:E; [|vm_compute in E; discriminate E].
  exists a'. split; [reflexivity|].
  assert (getTotalRequests (Scenario.chain_at 10 Scenario.two_paid) = Ok 3)
    as Hn by (vm_compute; reflexivity).
  destruct (proj2 (loadPendingRequests_result Scenario.config
                     (Scenario.chain_at 10 Scenario.two_paid)
                     Attestor.constructor) 3 a' Hn E)
    as (_ & _ & _ & Hd & Hin).
  split; [apply Hd; apply NoDup_nil_2|].
  intros kv Hkv. destruct (Hin kv Hkv) as [Hold|(_ & _ & Hp)];
    [|exact Hp].
  apply elem_of_nil in Hold. contradiction.
Defined.

Lemma start_outcome_witness :
  exists a',
    start Scenario.config (Scenario.xrpl 100 []) Scenario.ethers_ok
          (Scenario.chain_at 10 Scenario.two_paid) Attestor.constructor
    = Started a' /\
    lastProcessedLedger a' = Some 100 /\ isRunning a' = true.
Proof.
  destruct (start Scenario.config (Scenario.xrpl 100 []) Scenario.ethers_ok
              (Scenario.chain_at 10 Scenario.two_paid) Attestor.constructor)
    as [a'|code] eqn:E; [|vm_compute in E; discriminate E].
  exists a'. split; [reflexivity|].
  destruct (proj2 (start_outcome _ _ _ _ _) a' E)
    as (_ & Hinfo & [seq Hseq] & _ & _ & _ & _ & Hrun & _).
  split; [|exact Hrun]. rewrite Hseq in Hinfo |- *. cbn in Hinfo.
  injection Hinfo as <-. reflexivity.
Defined.

End Loading.

(** ** The backend routes *)

Module BackendFacts.
Import Stdlib.Strings.Ascii.
Import RequestManager Backend.

Lemma countdown_length from to :
  length (countdown from to) = Z.to_nat (from - to + 1).
Proof. unfold countdown. rewrite length_fmap, length_seq. reflexivity. Qed.

Lemma countdown_lookup from to j :
  (j < Z.to_nat (from - to + 1))%nat ->
  countdown from to !! j = Some (from - Z.of_nat j).
Proof.
  intros Hj. unfold countdown. rewrite list_lookup_fmap.
  rewrite lookup_seq_lt by exact Hj. reflexivity.
Qed.

Lemma countdown_range from to i :
  i ∈ countdown from to -> to <= i <= from.
Proof.
  intros Hi. apply list_elem_of_lookup in Hi as [j Hj].
  assert (j < Z.to_nat (from - to + 1))%nat as Hlt.
  { rewrite <- countdown_length. apply lookup_lt_is_Some. eauto. }
  rewrite countdown_lookup in Hj by exact Hlt. injection Hj as <-. lia.
Qed.

Lemma recentRequestIds_range limit total ids i :
  recentRequestIds limit total = Ok ids -> i ∈ ids -> 1 <= i <= total.
Proof.
  unfold recentRequestIds. intros H Hi.
  destruct (total =? 0).
  { injection H as <-. apply elem_of_nil in Hi. contradiction. }
  destruct (Attestor.toNumber total) as [n|] eqn:Et; [|discriminate H].
  unfold Attestor.toNumber in Et.
  destruct (_ && _); [|discriminate Et]. injection Et as <-.
  cbn [mbind result_bind] in H. destruct limit as [l|].
  - injection H as <-. apply countdown_range in Hi. lia.
  - injection H as <-. apply elem_of_nil in Hi. contradiction.
Qed.

(** X24. The recent route asks for the newest identifiers, newest first:
    for a total between 1 and the largest safe integer and a limit [l] it
    asks for [min(l, 100, total)] identifiers (none when that is not
    positive), the [j]-th being [total - j]; so never for more than 100,
    never for identifier 0 and never for one above the total. For a total
    of 0, or a limit that is not a number, it asks for none; for a total
    beyond the safe integers it fails. *)
Theorem recentRequestIds_newest_first limit total :
  (total = 0 -> recentRequestIds limit total = Ok []) /\
  (Attestor.MAX_SAFE_INTEGER < total ->
   recentRequestIds limit total = Revert "overflow") /\
  (1 <= total <= Attestor.MAX_SAFE_INTEGER ->
   exists ids,
     recentRequestIds limit total = Ok ids /\
     length ids
     = match limit with
       | Some l => Z.to_nat (Z.min (Z.min l 100) total)
       | None => 0%nat
       end /\
     (forall j, (j < length ids)%nat ->
                ids !! j = Some (total - Z.of_nat j)) /\
     (forall i, i ∈ ids -> 1 <= i <= total)).
Proof.
  unfold recentRequestIds, Attestor.toNumber. split; [|split].
  - intros ->. reflexivity.
  - intros H. rewrite (proj2 (Z.eqb_neq total 0))
      by (unfold Attestor.MAX_SAFE_INTEGER in H; lia).
    rewrite (proj2 (Z.leb_gt total _) H), andb_false_r. reflexivity.
  - intros [H1 H2]. rewrite (proj2 (Z.eqb_neq total 0)) by lia.
    rewrite (proj2 (Z.leb_le _ total))
      by (unfold Attestor.MAX_SAFE_INTEGER; lia).
    rewrite (proj2 (Z.leb_le total _) H2). cbn [andb mbind result_bind].
    destruct limit as [l|].
    + eexists. split; [reflexivity|]. cbv zeta.
      assert (Z.to_nat (total - Z.max 1 (total - Z.min l 100 + 1) + 1)
              = Z.to_nat (Z.min (Z.min l 100) total)) as Hlen
          by (f_equal; lia).
      rewrite countdown_length, Hlen. split; [reflexivity|]. split.
      * intros j Hj. apply countdown_lookup. rewrite Hlen. exact Hj.
      * intros i Hi. apply countdown_range in Hi. lia.
    + exists []. split; [reflexivity|]. split; [reflexivity|].
      split; [intros j Hj; cbn in Hj; lia|].
      intros i Hi. apply elem_of_nil in Hi. contradiction.
Qed.

Lemma recentRequestIds_newest_first_witness :
  exists ids,
    recentRequestIds (Some 20) 3 = Ok ids /\
    length ids = 3%nat /\
    forall i, i ∈ ids -> 1 <= i <= 3.
Proof.
  destruct (proj2 (proj2 (recentRequestIds_newest_first (Some 20) 3)))
    as (ids & H1 & H2 & _ & H4); [vm_compute; split; discriminate|].
  exists ids. split; [exact H1|]. split; [exact H2 | exact H4].
Defined.

(** X25. Over a contract reached by fewer than [2^256 - 1] transactions,
    none from the zero address, every identifier the recent route asks
    for is one [getRequest] answers. *)
Theorem recentRequestIds_all_exist e0 registry tr limit ids :
  Z.of_nat (length tr) < UINT256_MOD - 1 ->
  Forall (fun ec => msg_sender (fst ec) <> 0) tr ->
  let s := run tr (constructor e0 registry) in
  recentRequestIds limit (getTotalRequests s) = Ok ids ->
  Forall (fun i => is_ok (getRequest s i) = true) ids.
Proof.
  intros Hlen Hsenders s Hids.
  destruct (Reachable.reachable_creators e0 registry tr Hlen Hsenders)
    as [Hcr Hok].
  fold s in Hcr, Hok. apply Forall_forall. intros i Hi.
  apply (recentRequestIds_range _ _ _ _ Hids) in Hi.
  destruct (Reachable.getRequest_stored s i Hcr Hok Hi) as (q & Hq & _).
  rewrite Hq. reflexivity.
Qed.

Lemma recentRequestIds_all_exist_witness :
  let tr := [(Scenario.env Scenario.OWNER 1,
              AddAuthorizedAttestor Scenario.WALLET);
             (Scenario.env Scenario.ALICE 2, Scenario.ask "dinner");
             (Scenario.env Scenario.ALICE 3, Scenario.ask "taxi")] in
  let s := run tr (constructor (Scenario.env Scenario.OWNER 0)
                               Scenario.REGISTRY) in
  Forall (fun i => is_ok (getRequest s i) = true) [2; 1].
Proof.
  intros tr s.
  apply (recentRequestIds_all_exist _ _ tr (Some 20) [2; 1]).
  - reflexivity.
  - repeat constructor; discriminate.
  - vm_compute. reflexivity.
Defined.

(** X26. The route's status text decodes the contract's enumeration:
    each status is shown under its own name, two statuses never under the
    same name, and any other number as "UNKNOWN". *)
Theorem statusText_decodes :
  (forall st,
      statusText (status_code st)
      = match st with
        | PENDING => "PENDING"
        | PAID => "PAID"
        | CANCELLED => "CANCELLED"
        | EXPIRED => "EXPIRED"
        end) /\
  (forall st st',
      statusText (status_code st) = statusText (status_code st') ->
      st = st') /\
  (forall z, z < 0 \/ 3 < z -> statusText z = "UNKNOWN").
Proof.
  split; [intros []; reflexivity|]. split.
  - intros [] []; cbn; intros H; try reflexivity; discriminate H.
  - intros z [Hz|Hz]; unfold statusText.
    + rewrite (proj2 (Z.leb_gt 0 z)) by lia. reflexivity.
    + rewrite (proj2 (Z.leb_le 0 z)) by lia.
      rewrite lookup_ge_None_2; [reflexivity|]. cbn [length]. lia.
Qed.

(** *** Address validation *)

Lemma address_char_not_lower c :
  address_char c = true -> char_between "a" "z" c = false.
Proof.
  unfold address_char, char_between. cbn [nat_of_ascii].
  intros H. apply not_true_is_false. intros L.
  repeat (apply orb_true_iff in H as [H|H]);
    apply andb_true_iff in H as [H1 H2];
    apply andb_true_iff in L as [L1 L2];
    apply Nat.leb_le in H1, H2, L1, L2;
    vm_compute in H2, L1; lia.
Qed.

Lemma length_list_ascii_of_string x :
  length (String.list_ascii_of_string x) = String.length x.
Proof. induction x as [|c x IH]; cbn; congruence. Qed.

(** X27. An address the routes accept is an [r] followed by 25 to 34
    characters, each an upper-case letter other than [I] and [O] or a
    digit; so it has 26 to 35 characters and no lower-case letter after
    the first, and every address with a lower-case letter in its body is
    answered "Invalid XRPL address format". *)
Theorem isValidXRPLAddress_shape address :
  isValidXRPLAddress address = true ->
  exists body,
    address = String "r" body /\
    (26 <= String.length address <= 35)%nat /\
    Forall (fun c => address_char c = true /\
                     char_between "a" "z" c = false)
           (String.list_ascii_of_string body).
Proof.
  unfold isValidXRPLAddress.
  destruct address as [|c body]; [discriminate|].
  destruct (Ascii.eqb_spec c "r") as [->|Hc].
  2:{ intros H. exfalso. revert H.
      destruct c as [[] [] [] [] [] [] [] []]; try discriminate.
      contradiction Hc. reflexivity. }
  intros H. apply andb_true_iff in H as [H H34].
  apply andb_true_iff in H as [Hall H25].
  apply Nat.leb_le in H25, H34. exists body. split; [reflexivity|].
  split; [cbn [String.length]; lia|].
  apply Forall_forall. intros ch Hch.
  rewrite forallb_forall in Hall. apply list_elem_of_In in Hch.
  specialize (Hall ch Hch). split; [exact Hall|].
  apply address_char_not_lower. exact Hall.
Qed.

Lemma isValidXRPLAddress_shape_witness :
  exists body,
    "rHB9CJAWYB4RJ91VRWN96DKUKG4BWDTYTH" = String "r" body /\
    (26 <= String.length "rHB9CJAWYB4RJ91VRWN96DKUKG4BWDTYTH" <= 35)%nat
    /\
    Forall (fun c => address_char c = true /\
                     char_between "a" "z" c = false)
           (String.list_ascii_of_string body).
Proof.
  apply isValidXRPLAddress_shape. vm_compute. reflexivity.
Defined.

(** The address used in the repository's own testing guide is rejected. *)
Example guide_address_rejected :
  isValidXRPLAddress "rN7n7otQDd6FczFgLdSqtcsAUxDkw6fzRH" = false.
Proof. vm_compute. reflexivity. Qed.

End BackendFacts.
